(** * TIDAL MCP server: the session check and the tool facade

    A shallow embedding of [src/tidal_mcp/server.py] and
    [src/tidal_mcp/models.py], and the properties of the session check and
    of the 26 catalog and library tools that follow from the code.

    The Python code is written against three collaborators that are not
    part of the repository: the [tidalapi] session object (with the remote
    service behind it), the [json] module and the [webbrowser] module.
    They are parameters of the development: every call the facade makes to
    them is a constructor of [Call], answered by an arbitrary environment
    [Env], and every such call is recorded with its outcome, in order, in
    the world the tools run in.  The only mutable state owned by the server
    itself is the session file.

    How the Python is read:
    - [int] is [Z], [str] is [string], [Optional[T]] is [option T], a list
      is a [list]; [len] and slices are written out ([len], [slice_to]);
    - an exception is a value of [exn]; a computation returns an [Outcome]
      and the world it leaves, and [try_except] is [try ... except];
    - [await anyio.to_thread.run_sync(f, x)] is the call [f(x)]: one tool
      call runs from start to end;
    - the text of the errors Python itself raises ([AttributeError],
      [KeyError], pydantic's [ValidationError]) is abbreviated; the text of
      every [ToolError] is the one in the source;
    - an attribute the code probes with [hasattr] or [getattr] is an
      [attr]: missing, [None], or a value. *)

From Stdlib Require Import ZArith List String Ascii Bool Lia DecimalString.
Import ListNotations.

Local Open Scope string_scope.
Local Open Scope Z_scope.

(** ** Python values and exceptions *)

(** The values [json.loads] can return and [json.dumps] accepts. *)
#[local] Set Warnings "-register-all".
Inductive json : Type :=
| JNull
| JBool (b : bool)
| JInt (z : Z)
| JStr (s : string)
| JList (l : list json)
| JDict (kv : list (string * json)).

(** Python truthiness, as used by [x or default]. *)
Definition truthy (v : json) : bool :=
  match v with
  | JNull => false
  | JBool b => b
  | JInt z => negb (z =? 0)
  | JStr s => negb (String.eqb s "")
  | JList l => match l with [] => false | _ => true end
  | JDict kv => match kv with [] => false | _ => true end
  end.

(** [a or b]. *)
Definition py_or (a b : json) : json := if truthy a then a else b.

(** The exceptions the server distinguishes: [ToolError] (what a tool
    reports to its caller), [ValueError] (raised by [int()]), and every
    other subclass of [Exception], with its class name.  [str e] is the
    text [str(e)]. *)
Inductive exn : Type :=
| ToolError (msg : string)
| ValueError (msg : string)
| PyError (cls : string) (msg : string).

Definition str (e : exn) : string :=
  match e with
  | ToolError m => m
  | ValueError m => m
  | PyError _ m => m
  end.

Inductive Outcome (A : Type) : Type :=
| Raised (e : exn)
| Returned (a : A).
Arguments Raised {A} e.
Arguments Returned {A} a.

(** An attribute of a remote object: not there at all ([hasattr] is false),
    there and [None], or there with a value. *)
Inductive attr (A : Type) : Type :=
| Absent
| NoneVal
| Val (a : A).
Arguments Absent {A}.
Arguments NoneVal {A}.
Arguments Val {A} a.

(** [obj.name]: direct attribute access. *)
Definition getattr {A} (name : string) (a : attr A) : Outcome (option A) :=
  match a with
  | Absent => Raised (PyError "AttributeError" ("object has no attribute '" ++ name ++ "'"))
  | NoneVal => Returned None
  | Val v => Returned (Some v)
  end.

(** [getattr(obj, name, default)]. *)
Definition getattr_default {A} (a : attr A) (default : A) : option A :=
  match a with
  | Absent => Some default
  | NoneVal => None
  | Val v => Some v
  end.

(** A pydantic field declared [int] or [str] refuses [None]. *)
Definition required {A} (field : string) (v : option A) : Outcome A :=
  match v with
  | Some a => Returned a
  | None => Raised (PyError "ValidationError" ("1 validation error: " ++ field))
  end.

(** [data[key]] on a parsed JSON value. *)
Fixpoint dict_get (key : string) (kv : list (string * json)) : option json :=
  match kv with
  | [] => None
  | (k, v) :: rest => if String.eqb k key then Some v else dict_get key rest
  end.

Definition getitem (data : json) (key : string) : Outcome json :=
  match data with
  | JDict kv =>
      match dict_get key kv with
      | Some v => Returned v
      | None => Raised (PyError "KeyError" ("'" ++ key ++ "'"))
      end
  | _ => Raised (PyError "TypeError" "object is not subscriptable with a str key")
  end.

(** [str(n)] for a length. *)
Definition str_of_nat (n : nat) : string := NilEmpty.string_of_uint (Nat.to_uint n).

(** [lst[:k]]. *)
Definition slice_to {A} (l : list A) (k : Z) : list A :=
  if 0 <=? k then firstn (Z.to_nat k) l
  else firstn (Z.to_nat (Z.of_nat (List.length l) + k)) l.

(** *** [int(s)] on text *)

Definition is_space (c : ascii) : bool :=
  let n := nat_of_ascii c in
  ((9 <=? n) && (n <=? 13) || (28 <=? n) && (n <=? 32))%nat.

Definition digit_of (c : ascii) : option Z :=
  let n := nat_of_ascii c in
  if ((48 <=? n) && (n <=? 57))%nat then Some (Z.of_nat (n - 48)) else None.

Fixpoint lstrip (s : string) : string :=
  match s with
  | String c rest => if is_space c then lstrip rest else s
  | EmptyString => EmptyString
  end.

Fixpoint string_rev_onto (s acc : string) : string :=
  match s with
  | EmptyString => acc
  | String c rest => string_rev_onto rest (String c acc)
  end.

Definition string_rev (s : string) : string := string_rev_onto s EmptyString.

Definition strip (s : string) : string :=
  string_rev (lstrip (string_rev (lstrip s))).

(** Digits with single underscores between them; [started] tells whether a
    digit was just read (an underscore is allowed only then, and must be
    followed by a digit). *)
Fixpoint digits (s : string) (acc : Z) (started : bool) : option Z :=
  match s with
  | EmptyString => if started then Some acc else None
  | String c rest =>
      match digit_of c with
      | Some d => digits rest (10 * acc + d) true
      | None =>
          if (Ascii.eqb c "_" && started)%bool then
            match rest with
            | String c' _ =>
                match digit_of c' with
                | Some _ => digits rest acc false
                | None => None
                end
            | EmptyString => None
            end
          else None
      end
  end.

Definition parse_int (s : string) : option Z :=
  match strip s with
  | String "-" rest => option_map Z.opp (digits rest 0 false)
  | String "+" rest => digits rest 0 false
  | body => digits body 0 false
  end.

(** [int(s)]: the integer, or [ValueError] with Python's message. *)
Definition py_int (s : string) : Outcome Z :=
  match parse_int s with
  | Some z => Returned z
  | None => Raised (ValueError ("invalid literal for int() with base 10: '" ++ s ++ "'"))
  end.

(** *** Text helpers used by [login] *)

Definition lower_char (c : ascii) : ascii :=
  let n := nat_of_ascii c in
  if ((65 <=? n) && (n <=? 90))%nat then ascii_of_nat (n + 32) else c.

Fixpoint lower (s : string) : string :=
  match s with
  | EmptyString => EmptyString
  | String c rest => String (lower_char c) (lower rest)
  end.

(** [s.startswith(p)]. *)
Definition startswith (s p : string) : bool := String.prefix p s.

(** [p in s]. *)
Fixpoint contains (p s : string) : bool :=
  if String.prefix p s then true
  else match s with
       | EmptyString => false
       | String _ rest => contains p rest
       end.

(** ** The output models of [models.py] *)

Module Track.
Record t : Type := mk
    { id : string; title : string; artist : string; album : string;
      duration_seconds : Z; url : string }.
End Track.

Module Album.
Record t : Type := mk
    { id : string; title : string; artist : string;
      release_date : option string; num_tracks : Z; duration_seconds : Z;
      url : string }.
End Album.

Module Artist.
Record t : Type := mk { id : string; name : string; url : string }.
End Artist.

Module Playlist.
Record t : Type := mk
    { id : string; name : string; description : string; track_count : Z;
      creator : option string; url : string }.
End Playlist.

Module TrackList.
Record t : Type := mk
    { status : string; query : option string; count : Z;
      tracks : list Track.t }.
End TrackList.

Module AlbumList.
Record t : Type := mk
    { status : string; query : option string; count : Z;
      albums : list Album.t }.
End AlbumList.

Module ArtistList.
Record t : Type := mk
    { status : string; query : option string; count : Z;
      artists : list Artist.t }.
End ArtistList.

Module PlaylistList.
Record t : Type := mk
    { status : string; query : option string; count : Z;
      playlists : list Playlist.t }.
End PlaylistList.

Module PlaylistTracks.
Record t : Type := mk
    { status : string; playlist_name : string; playlist_id : string;
      count : Z; tracks : list Track.t }.
End PlaylistTracks.

Module AlbumTracks.
Record t : Type := mk
    { status : string; album_title : string; album_id : string;
      artist : string; count : Z; tracks : list Track.t }.
End AlbumTracks.

Module AuthResult.
Record t : Type := mk
    { status : string; message : string; authenticated : bool }.
End AuthResult.

Module CreatePlaylistResult.
Record t : Type := mk
    { status : string; playlist : option Playlist.t; message : string }.
End CreatePlaylistResult.

Module AddTracksResult.
Record t : Type := mk
    { status : string; playlist_id : string; playlist_name : string;
      tracks_added : Z; playlist_url : string; message : string }.
End AddTracksResult.

Module RemoveTracksResult.
Record t : Type := mk
    { status : string; playlist_id : string; playlist_name : string;
      tracks_removed : Z; message : string }.
End RemoveTracksResult.

Module UpdatePlaylistResult.
Record t : Type := mk
    { status : string; playlist : option Playlist.t; message : string }.
End UpdatePlaylistResult.

Module DeletePlaylistResult.
Record t : Type := mk
    { status : string; playlist_id : string; message : string }.
End DeletePlaylistResult.

Module AddToFavoritesResult.
Record t : Type := mk
    { status : string; item_id : string; item_type : string;
      message : string }.
End AddToFavoritesResult.

Module RemoveFromFavoritesResult.
Record t : Type := mk
    { status : string; item_id : string; item_type : string;
      message : string }.
End RemoveFromFavoritesResult.

Module ArtistDetails.
Record t : Type := mk
    { status : string; artist : Artist.t; bio : option string }.
End ArtistDetails.

Module AlbumDetails.
Record t : Type := mk { status : string; album : Album.t }.
End AlbumDetails.

Module RadioTracks.
Record t : Type := mk
    { status : string; seed_id : string; seed_type : string;
      seed_name : string; count : Z; tracks : list Track.t }.
End RadioTracks.

(** What a tool returns: one of the models above. *)
Inductive Response : Type :=
| RTrackList (r : TrackList.t)
| RAlbumList (r : AlbumList.t)
| RArtistList (r : ArtistList.t)
| RPlaylistList (r : PlaylistList.t)
| RPlaylistTracks (r : PlaylistTracks.t)
| RAlbumTracks (r : AlbumTracks.t)
| RRadioTracks (r : RadioTracks.t)
| RAuthResult (r : AuthResult.t)
| RCreatePlaylistResult (r : CreatePlaylistResult.t)
| RAddTracksResult (r : AddTracksResult.t)
| RRemoveTracksResult (r : RemoveTracksResult.t)
| RUpdatePlaylistResult (r : UpdatePlaylistResult.t)
| RDeletePlaylistResult (r : DeletePlaylistResult.t)
| RAddToFavoritesResult (r : AddToFavoritesResult.t)
| RRemoveFromFavoritesResult (r : RemoveFromFavoritesResult.t)
| RArtistDetails (r : ArtistDetails.t)
| RAlbumDetails (r : AlbumDetails.t).

(** ** The objects the remote client hands back

    Only the attributes the server reads.  [id] is the text [str(obj.id)];
    [id] and [name] are always there, the other attributes may be missing
    or [None] ([attr]), and a reference to an artist or album is an object
    or [None]. *)

Module RemoteArtist.
Record t : Type := mk { id : string; name : string }.
End RemoteArtist.

Module RemoteAlbum.
Record t : Type := mk
    { id : string; name : string; artist : option RemoteArtist.t;
      release_date : attr string; num_tracks : attr Z; duration : attr Z }.
End RemoteAlbum.

Module RemoteTrack.
Record t : Type := mk
    { id : string; name : string; artist : option RemoteArtist.t;
      album : option RemoteAlbum.t; duration : attr Z }.
End RemoteTrack.

Module RemoteCreator.
Record t : Type := mk { name : attr string }.
End RemoteCreator.

Module RemotePlaylist.
Record t : Type := mk
    { id : string; name : string; description : attr string;
      num_tracks : attr Z; creator : attr RemoteCreator.t }.
End RemotePlaylist.

(** The dictionary [session.search] returns; a key may be missing. *)
Module SearchResults.
Record t : Type := mk
    { tracks : option (list RemoteTrack.t);
      albums : option (list RemoteAlbum.t);
      artists : option (list RemoteArtist.t);
      playlists : option (list RemotePlaylist.t) }.
End SearchResults.

(** ** Calls to the collaborators *)

Inductive Model : Type := MTrack | MAlbum | MArtist | MPlaylist.

(** Every call the server makes to [tidalapi] or [webbrowser], with its
    arguments.  A method of a remote object carries the object's id. *)
Inductive Call : Type :=
| load_oauth_session (token_type access_token refresh_token expiry_time : json)
| check_login
| login_oauth
| webbrowser_open (url : string)
| future_result
| session_search (model : Model) (query : string) (limit : Z)
| favorites_tracks (limit : Z)
| favorites_albums (limit : Z)
| favorites_artists (limit : Z)
| favorites_add_track (track_id : Z)
| favorites_remove_track (track_id : Z)
| favorites_remove_album (album_id : Z)
| user_playlists
| user_create_playlist (name description : string)
| session_playlist (playlist_id : string)
| playlist_tracks (playlist_id : string)
| playlist_add (playlist_id : string) (track_ids : list Z)
| playlist_remove_by_indices (playlist_id : string) (indices : list Z)
| playlist_remove_by_id (playlist_id : string) (track_ids : list Z)
| playlist_edit (playlist_id : string) (name : string) (description : option string)
| playlist_delete (playlist_id : string)
| session_album (album_id : string)
| album_tracks (album_id : string)
| album_similar (album_id : string)
| session_track (track_id : string)
| track_get_track_radio (track_id : string) (limit : Z)
| session_artist (artist_id : string)
| artist_get_radio (artist_id : string) (limit : Z)
| artist_get_bio (artist_id : string)
| artist_get_albums (artist_id : string) (limit : Z)
| artist_get_top_tracks (artist_id : string) (limit : Z)
| artist_get_similar (artist_id : string).

(** The type of what each call returns when it does not raise. *)
Definition answer (c : Call) : Type :=
  match c with
  | load_oauth_session _ _ _ _ => bool
  | check_login => bool
  | login_oauth => string
  | webbrowser_open _ => unit
  | future_result => unit
  | session_search _ _ _ => SearchResults.t
  | favorites_tracks _ => list RemoteTrack.t
  | favorites_albums _ => list RemoteAlbum.t
  | favorites_artists _ => list RemoteArtist.t
  | favorites_add_track _ => unit
  | favorites_remove_track _ => unit
  | favorites_remove_album _ => unit
  | user_playlists => list RemotePlaylist.t
  | user_create_playlist _ _ => RemotePlaylist.t
  | session_playlist _ => option RemotePlaylist.t
  | playlist_tracks _ => list RemoteTrack.t
  | playlist_add _ _ => unit
  | playlist_remove_by_indices _ _ => unit
  | playlist_remove_by_id _ _ => unit
  | playlist_edit _ _ _ => unit
  | playlist_delete _ => unit
  | session_album _ => option RemoteAlbum.t
  | album_tracks _ => list RemoteTrack.t
  | album_similar _ => list RemoteAlbum.t
  | session_track _ => option RemoteTrack.t
  | track_get_track_radio _ _ => list RemoteTrack.t
  | session_artist _ => option RemoteArtist.t
  | artist_get_radio _ _ => list RemoteTrack.t
  | artist_get_bio _ => string
  | artist_get_albums _ _ => list RemoteAlbum.t
  | artist_get_top_tracks _ _ => list RemoteTrack.t
  | artist_get_similar _ => list RemoteArtist.t
  end.

(** The five values of the session object that [login] writes to the
    session file. *)
Module Credentials.
Record t : Type := mk
    { token_type : json; session_id : json; access_token : json;
      refresh_token : json; is_pkce : json }.
End Credentials.

(** The environment: the state [L] of the session object and of the remote
    service behind it, how each call is answered from it, the attributes of
    the session object, and the number of HTTP requests the library has
    sent so far. *)
Record Env (L : Type) : Type := mkEnv
  { perform : forall c : Call, L -> Outcome (answer c) * L;
    credentials : L -> Credentials.t;
    http_requests : L -> nat }.
Arguments perform {L} e c l.
Arguments credentials {L} e l.
Arguments http_requests {L} e l.

(** Python's [json] module. *)
Record Codec : Type := mkCodec
  { dumps : json -> string;
    loads : string -> Outcome json }.

(** ** The world the server runs in *)

(** One exchange with a collaborator: the call and how it ended. *)
Record Interaction : Type := interaction
  { made : Call;
    got : Outcome (answer made) }.

(** The session file (its text, or [None] when there is no file), the state
    of the library, and the exchanges so far, newest first. *)
Record World (L : Type) : Type := mkWorld
  { session_file : option string;
    lib : L;
    log : list Interaction }.
Arguments mkWorld {L} session_file lib log.
Arguments session_file {L} w.
Arguments lib {L} w.
Arguments log {L} w.

(** A computation: from a world to an outcome and the world it leaves. *)
Definition M (L A : Type) : Type := World L -> Outcome A * World L.

Definition ret {L A} (a : A) : M L A := fun w => (Returned a, w).

Definition raise {L A} (e : exn) : M L A := fun w => (Raised e, w).

Definition bind {L A B} (m : M L A) (k : A -> M L B) : M L B :=
  fun w =>
    match m w with
    | (Returned a, w') => k a w'
    | (Raised e, w') => (Raised e, w')
    end.

(** [try: body  except Exception as e: handler]. *)
Definition try_except {L A} (body : M L A) (handler : exn -> M L A) : M L A :=
  fun w =>
    match body w with
    | (Raised e, w') => handler e w'
    | (Returned a, w') => (Returned a, w')
    end.

Definition lift {L A} (o : Outcome A) : M L A := fun w => (o, w).

Declare Scope py_scope.
Delimit Scope py_scope with py.
Notation "x <- m ;; k" := (bind m (fun x => k))
  (at level 61, m at next level, right associativity) : py_scope.
Notation "m ;; k" := (bind m (fun _ => k))
  (at level 61, right associativity) : py_scope.
Local Open Scope py_scope.

(** [for x in xs: out.append(f(x))]. *)
Fixpoint for_each {L A B} (xs : list A) (f : A -> M L B) : M L (list B) :=
  match xs with
  | [] => ret []
  | x :: rest =>
      y <- f x ;;
      ys <- for_each rest f ;;
      ret (y :: ys)
  end.

(** [len(xs)]. *)
Definition len {A} (xs : list A) : Z := Z.of_nat (List.length xs).

(** [bool(xs)] for an optional list. *)
Definition populated {A} (xs : option (list A)) : bool :=
  match xs with
  | Some (_ :: _) => true
  | _ => false
  end.

(** [bool(s)] for an optional text. *)
Definition nonempty (s : option string) : bool :=
  match s with
  | Some s => negb (String.eqb s "")
  | None => false
  end.

(** Model constructors; a field declared [int] refuses [None]. *)
Definition new_Track (id title artist album : string) (duration : option Z)
  (url : string) : Outcome Track.t :=
  match required "duration_seconds" duration with
  | Returned d => Returned (Track.mk id title artist album d url)
  | Raised e => Raised e
  end.

Definition new_Album (id title artist : string) (release_date : option string)
  (num_tracks duration : option Z) (url : string) : Outcome Album.t :=
  match required "num_tracks" num_tracks with
  | Returned n =>
      match required "duration_seconds" duration with
      | Returned d => Returned (Album.mk id title artist release_date n d url)
      | Raised e => Raised e
      end
  | Raised e => Raised e
  end.

Definition new_Playlist (id name description : string) (track_count : option Z)
  (creator : option string) (url : string) : Outcome Playlist.t :=
  match required "track_count" track_count with
  | Returned n => Returned (Playlist.mk id name description n creator url)
  | Raised e => Raised e
  end.

(** [str(x.release_date)] when the attribute is there and truthy (a date
    object is always truthy). *)
Definition release_date_of (a : attr string) : option string :=
  match a with
  | Val d => Some d
  | _ => None
  end.

(** [getattr(p, "description", "") or ""]. *)
Definition description_or_empty (a : attr string) : string :=
  match a with
  | Val s => s
  | _ => ""
  end.

(** The creator's name when [p.creator] is there and truthy. *)
Definition creator_name_of (a : attr RemoteCreator.t) : option string :=
  match a with
  | Val c =>
      match RemoteCreator.name c with
      | Val n => Some n
      | _ => None
      end
  | _ => None
  end.

(** ** Messages *)

Definition not_authenticated : string :=
  "Not authenticated. Please run the 'login' tool first.".

Definition nl : string := String (ascii_of_nat 10) EmptyString.

Definition authentication_timed_out : string :=
  "Authentication timed out. Please authenticate using the helper script:"
  ++ nl ++ nl
  ++ "  cd /home/ubuntu/code/personal/tidal/tidal-mcp && uv run python authenticate.py"
  ++ nl ++ nl
  ++ "After authenticating, all MCP tools will work automatically.".

Definition not_found (kind id : string) : string :=
  kind ++ " with ID '" ++ id ++ "' not found".

(** [except Exception as e: raise ToolError(prefix + str(e))]. *)
Definition failed {L A} (prefix : string) (e : exn) : M L A :=
  raise (ToolError (prefix ++ str e)).

(** [except ToolError: raise] followed by the handler above. *)
Definition failed_unless_tool_error {L A} (prefix : string) (e : exn) : M L A :=
  match e with
  | ToolError _ => raise e
  | _ => raise (ToolError (prefix ++ str e))
  end.

Section Server.

Context {L : Type}.
Variable env : Env L.
Variable codec : Codec.

Local Abbreviation Py := (M L).

(** A call to a collaborator: answered by the environment and recorded. *)
Definition call (c : Call) : Py (answer c) :=
  fun w =>
    let (r, l') := perform env c (lib w) in
    (r, mkWorld (session_file w) l' (interaction c r :: log w)).

(** The session file. *)
Definition file_exists : Py bool :=
  fun w => (Returned (match session_file w with Some _ => true | None => false end), w).

Definition file_read : Py string :=
  fun w =>
    match session_file w with
    | Some content => (Returned content, w)
    | None => (Raised (PyError "FileNotFoundError" "session.json"), w)
    end.

Definition file_write (content : string) : Py unit :=
  fun w => (Returned tt, mkWorld (Some content) (lib w) (log w)).

Definition file_unlink : Py unit :=
  fun w =>
    match session_file w with
    | Some _ => (Returned tt, mkWorld None (lib w) (log w))
    | None => (Raised (PyError "FileNotFoundError" "session.json"), w)
    end.

(** The attributes of the global [session] object. *)
Definition session_attributes : Py Credentials.t :=
  fun w => (Returned (credentials env (lib w)), w).

(** *** Authentication helpers *)

(** [data[field]["data"]]. *)
Definition wrapped (data : json) (field : string) : Outcome json :=
  match getitem data field with
  | Returned inner => getitem inner "data"
  | Raised e => Raised e
  end.

Definition ensure_authenticated : Py bool :=
  present <- file_exists ;;
  if present then
    try_except
      (content <- file_read ;;
       data <- lift (loads codec content) ;;
       token_type <- lift (wrapped data "token_type") ;;
       access_token <- lift (wrapped data "access_token") ;;
       refresh_token <- lift (wrapped data "refresh_token") ;;
       result <- call (load_oauth_session token_type access_token refresh_token JNull) ;;
       if (result : bool) then
         is_valid <- call check_login ;;
         (if negb (is_valid : bool) then file_unlink else ret tt) ;;
         ret is_valid
       else ret false)
      (fun _ => file_unlink ;; ret false)
  else call check_login.

(** The dictionary [login] writes. *)
Definition session_data (c : Credentials.t) : json :=
  JDict
    [ ("token_type", JDict [("data", py_or (Credentials.token_type c) (JStr "Bearer"))]);
      ("session_id", JDict [("data", py_or (Credentials.session_id c) (JStr ""))]);
      ("access_token", JDict [("data", Credentials.access_token c)]);
      ("refresh_token", JDict [("data", Credentials.refresh_token c)]);
      ("is_pkce", JDict [("data", Credentials.is_pkce c)]) ].

(** *** Tool 1: authentication *)

Definition login : Py Response :=
  authenticated <- ensure_authenticated ;;
  if (authenticated : bool) then
    ret (RAuthResult
           (AuthResult.mk "success" "Already authenticated with TIDAL" true))
  else
    try_except
      (uri <- call login_oauth ;;
       let auth_url :=
         if startswith uri "http" then uri else "https://" ++ uri in
       try_except (call (webbrowser_open auth_url)) (fun _ => ret tt) ;;
       call future_result ;;
       logged_in <- call check_login ;;
       if (logged_in : bool) then
         session <- session_attributes ;;
         file_write (dumps codec (session_data session)) ;;
         ret (RAuthResult
                (AuthResult.mk "success" "Successfully authenticated with TIDAL" true))
       else raise (ToolError "Authentication failed - please try again"))
      (fun e =>
         match e with
         | ToolError _ => raise e
         | _ =>
             let error_msg := str e in
             if (contains "too long" (lower error_msg)
                 || contains "timeout" (lower error_msg))%bool
             then raise (ToolError authentication_timed_out)
             else raise (ToolError ("Authentication error: " ++ error_msg))
         end).

(** *** Tools 2-5: search *)

Definition search_tracks (query : string) (limit : Z) : Py Response :=
  authenticated <- ensure_authenticated ;;
  if negb authenticated then raise (ToolError not_authenticated) else
  try_except
    (let limit := Z.min (Z.max 1 limit) 50 in
     results <- call (session_search MTrack query limit) ;;
     tracks <- for_each
       (match SearchResults.tracks results with Some l => l | None => [] end)
       (fun track =>
          duration <- lift (getattr "duration" (RemoteTrack.duration track)) ;;
          lift (new_Track
                  (RemoteTrack.id track)
                  (RemoteTrack.name track)
                  (match RemoteTrack.artist track with
                   | Some a => RemoteArtist.name a
                   | None => "Unknown Artist"
                   end)
                  (match RemoteTrack.album track with
                   | Some a => RemoteAlbum.name a
                   | None => "Unknown Album"
                   end)
                  duration
                  ("https://tidal.com/browse/track/" ++ RemoteTrack.id track))) ;;
     ret (RTrackList (TrackList.mk "success" (Some query) (len tracks) tracks)))
    (failed "Track search failed: ").

Definition search_albums (query : string) (limit : Z) : Py Response :=
  authenticated <- ensure_authenticated ;;
  if negb authenticated then raise (ToolError not_authenticated) else
  try_except
    (let limit := Z.min (Z.max 1 limit) 50 in
     results <- call (session_search MAlbum query limit) ;;
     albums <- for_each
       (match SearchResults.albums results with Some l => l | None => [] end)
       (fun album =>
          let release_date := release_date_of (RemoteAlbum.release_date album) in
          lift (new_Album
                  (RemoteAlbum.id album)
                  (RemoteAlbum.name album)
                  (match RemoteAlbum.artist album with
                   | Some a => RemoteArtist.name a
                   | None => "Unknown Artist"
                   end)
                  release_date
                  (getattr_default (RemoteAlbum.num_tracks album) 0)
                  (getattr_default (RemoteAlbum.duration album) 0)
                  ("https://tidal.com/browse/album/" ++ RemoteAlbum.id album))) ;;
     ret (RAlbumList (AlbumList.mk "success" (Some query) (len albums) albums)))
    (failed "Album search failed: ").

Definition search_artists (query : string) (limit : Z) : Py Response :=
  authenticated <- ensure_authenticated ;;
  if negb authenticated then raise (ToolError not_authenticated) else
  try_except
    (let limit := Z.min (Z.max 1 limit) 50 in
     results <- call (session_search MArtist query limit) ;;
     artists <- for_each
       (match SearchResults.artists results with Some l => l | None => [] end)
       (fun artist =>
          ret (Artist.mk
                 (RemoteArtist.id artist)
                 (RemoteArtist.name artist)
                 ("https://tidal.com/browse/artist/" ++ RemoteArtist.id artist))) ;;
     ret (RArtistList (ArtistList.mk "success" (Some query) (len artists) artists)))
    (failed "Artist search failed: ").

Definition search_playlists (query : string) (limit : Z) : Py Response :=
  authenticated <- ensure_authenticated ;;
  if negb authenticated then raise (ToolError not_authenticated) else
  try_except
    (let limit := Z.min (Z.max 1 limit) 50 in
     results <- call (session_search MPlaylist query limit) ;;
     playlists <- for_each
       (match SearchResults.playlists results with Some l => l | None => [] end)
       (fun playlist =>
          let creator_name := creator_name_of (RemotePlaylist.creator playlist) in
          lift (new_Playlist
                  (RemotePlaylist.id playlist)
                  (RemotePlaylist.name playlist)
                  (description_or_empty (RemotePlaylist.description playlist))
                  (getattr_default (RemotePlaylist.num_tracks playlist) 0)
                  creator_name
                  ("https://tidal.com/browse/playlist/" ++ RemotePlaylist.id playlist))) ;;
     ret (RPlaylistList
            (PlaylistList.mk "success" (Some query) (len playlists) playlists)))
    (failed "Playlist search failed: ").

(** *** Tools 6-7: favorites *)

Definition get_favorite_tracks (limit : Z) : Py Response :=
  authenticated <- ensure_authenticated ;;
  if negb authenticated then raise (ToolError not_authenticated) else
  try_except
    (favorites <- call (favorites_tracks limit) ;;
     tracks <- for_each favorites
       (fun track =>
          duration <- lift (getattr "duration" (RemoteTrack.duration track)) ;;
          lift (new_Track
                  (RemoteTrack.id track)
                  (RemoteTrack.name track)
                  (match RemoteTrack.artist track with
                   | Some a => RemoteArtist.name a
                   | None => "Unknown Artist"
                   end)
                  (match RemoteTrack.album track with
                   | Some a => RemoteAlbum.name a
                   | None => "Unknown Album"
                   end)
                  duration
                  ("https://tidal.com/browse/track/" ++ RemoteTrack.id track))) ;;
     ret (RTrackList (TrackList.mk "success" None (len tracks) tracks)))
    (failed "Failed to get favorites: ").

Definition add_track_to_favorites (track_id : string) : Py Response :=
  authenticated <- ensure_authenticated ;;
  if negb authenticated then raise (ToolError not_authenticated) else
  try_except
    (track_id_int <- lift (py_int track_id) ;;
     call (favorites_add_track track_id_int) ;;
     ret (RAddToFavoritesResult
            (AddToFavoritesResult.mk "success" track_id "track"
               ("Track " ++ track_id ++ " added to favorites"))))
    (fun e =>
       match e with
       | ValueError _ => raise (ToolError ("Invalid track ID format: " ++ track_id))
       | _ => failed "Failed to add track to favorites: " e
       end).

(** *** Tools 8-14: playlist management *)

Definition get_user_playlists (limit : Z) : Py Response :=
  authenticated <- ensure_authenticated ;;
  if negb authenticated then raise (ToolError not_authenticated) else
  try_except
    (all_playlists <- call user_playlists ;;
     let limited_playlists :=
       if negb (limit =? 0) then slice_to all_playlists limit else all_playlists in
     playlists <- for_each limited_playlists
       (fun playlist =>
          lift (new_Playlist
                  (RemotePlaylist.id playlist)
                  (RemotePlaylist.name playlist)
                  (description_or_empty (RemotePlaylist.description playlist))
                  (getattr_default (RemotePlaylist.num_tracks playlist) 0)
                  None
                  ("https://tidal.com/browse/playlist/" ++ RemotePlaylist.id playlist))) ;;
     ret (RPlaylistList (PlaylistList.mk "success" None (len playlists) playlists)))
    (failed "Failed to get playlists: ").

Definition get_playlist_tracks (playlist_id : string) (limit : Z) : Py Response :=
  authenticated <- ensure_authenticated ;;
  if negb authenticated then raise (ToolError not_authenticated) else
  try_except
    (found <- call (session_playlist playlist_id) ;;
     match found with
     | None => raise (ToolError (not_found "Playlist" playlist_id))
     | Some playlist =>
         all_tracks <- call (playlist_tracks (RemotePlaylist.id playlist)) ;;
         let limited_tracks :=
           if negb (limit =? 0) then slice_to all_tracks limit else all_tracks in
         tracks <- for_each limited_tracks
           (fun track =>
              duration <- lift (getattr "duration" (RemoteTrack.duration track)) ;;
              lift (new_Track
                      (RemoteTrack.id track)
                      (RemoteTrack.name track)
                      (match RemoteTrack.artist track with
                       | Some a => RemoteArtist.name a
                       | None => "Unknown Artist"
                       end)
                      (match RemoteTrack.album track with
                       | Some a => RemoteAlbum.name a
                       | None => "Unknown Album"
                       end)
                      duration
                      ("https://tidal.com/browse/track/" ++ RemoteTrack.id track))) ;;
         ret (RPlaylistTracks
                (PlaylistTracks.mk "success" (RemotePlaylist.name playlist)
                   playlist_id (len tracks) tracks))
     end)
    (failed_unless_tool_error "Failed to get playlist tracks: ").

Definition create_playlist (name description : string) : Py Response :=
  authenticated <- ensure_authenticated ;;
  if negb authenticated then raise (ToolError not_authenticated) else
  try_except
    (playlist <- call (user_create_playlist name description) ;;
     stored <- lift (getattr "description" (RemotePlaylist.description playlist)) ;;
     ret (RCreatePlaylistResult
            (CreatePlaylistResult.mk "success"
               (Some (Playlist.mk
                        (RemotePlaylist.id playlist)
                        (RemotePlaylist.name playlist)
                        (match stored with Some s => s | None => "" end)
                        0
                        None
                        ("https://tidal.com/browse/playlist/" ++ RemotePlaylist.id playlist)))
               ("Created playlist '" ++ name ++ "'"))))
    (failed "Failed to create playlist: ").

Definition add_tracks_to_playlist (playlist_id : string) (track_ids : list string)
  : Py Response :=
  authenticated <- ensure_authenticated ;;
  if negb authenticated then raise (ToolError not_authenticated) else
  try_except
    (found <- call (session_playlist playlist_id) ;;
     match found with
     | None => raise (ToolError (not_found "Playlist" playlist_id))
     | Some playlist =>
         track_ids_int <- for_each track_ids (fun tid => lift (py_int tid)) ;;
         call (playlist_add (RemotePlaylist.id playlist) track_ids_int) ;;
         ret (RAddTracksResult
                (AddTracksResult.mk "success" playlist_id
                   (RemotePlaylist.name playlist)
                   (len track_ids)
                   ("https://tidal.com/browse/playlist/" ++ playlist_id)
                   ("Added " ++ str_of_nat (List.length track_ids)
                    ++ " tracks to playlist '" ++ RemotePlaylist.name playlist ++ "'")))
     end)
    (fun e =>
       match e with
       | ValueError m => raise (ToolError ("Invalid track ID format: " ++ m))
       | _ => failed_unless_tool_error "Failed to add tracks: " e
       end).

Definition remove_tracks_from_playlist (playlist_id : string)
  (track_ids : option (list string)) (indices : option (list Z)) : Py Response :=
  authenticated <- ensure_authenticated ;;
  if negb authenticated then raise (ToolError not_authenticated) else
  if (negb (populated track_ids) && negb (populated indices))%bool then
    raise (ToolError "Must provide either track_ids or indices to remove")
  else
  if (populated track_ids && populated indices)%bool then
    raise (ToolError "Provide either track_ids or indices, not both")
  else
  try_except
    (found <- call (session_playlist playlist_id) ;;
     match found with
     | None => raise (ToolError (not_found "Playlist" playlist_id))
     | Some playlist =>
         removed_count <-
           (if populated indices then
              let indices := match indices with Some l => l | None => [] end in
              call (playlist_remove_by_indices (RemotePlaylist.id playlist) indices) ;;
              ret (List.length indices)
            else
              let track_ids := match track_ids with Some l => l | None => [] end in
              track_ids_int <- for_each track_ids (fun tid => lift (py_int tid)) ;;
              call (playlist_remove_by_id (RemotePlaylist.id playlist) track_ids_int) ;;
              ret (List.length track_ids)) ;;
         ret (RRemoveTracksResult
                (RemoveTracksResult.mk "success" playlist_id
                   (RemotePlaylist.name playlist)
                   (Z.of_nat removed_count)
                   ("Removed " ++ str_of_nat removed_count
                    ++ " tracks from playlist '" ++ RemotePlaylist.name playlist ++ "'")))
     end)
    (fun e =>
       match e with
       | ValueError m => raise (ToolError ("Invalid ID format: " ++ m))
       | _ => failed_unless_tool_error "Failed to remove tracks: " e
       end).

Definition update_playlist (playlist_id : string) (name description : option string)
  : Py Response :=
  authenticated <- ensure_authenticated ;;
  if negb authenticated then raise (ToolError not_authenticated) else
  if (negb (nonempty name)
      && match description with None => true | Some _ => false end)%bool then
    raise (ToolError "Must provide at least name or description to update")
  else
  try_except
    (found <- call (session_playlist playlist_id) ;;
     match found with
     | None => raise (ToolError (not_found "Playlist" playlist_id))
     | Some playlist =>
         (if nonempty name then
            call (playlist_edit (RemotePlaylist.id playlist)
                    (match name with Some n => n | None => "" end) description)
          else
            match description with
            | Some _ =>
                call (playlist_edit (RemotePlaylist.id playlist)
                        (RemotePlaylist.name playlist) description)
            | None => ret tt
            end) ;;
         refetched <- call (session_playlist playlist_id) ;;
         match refetched with
         | None =>
             raise (PyError "AttributeError" "'NoneType' object has no attribute 'id'")
         | Some updated_playlist =>
             stored <- lift (getattr "description"
                               (RemotePlaylist.description updated_playlist)) ;;
             updated <- lift (new_Playlist
                                (RemotePlaylist.id updated_playlist)
                                (RemotePlaylist.name updated_playlist)
                                (match stored with Some s => s | None => "" end)
                                (getattr_default (RemotePlaylist.num_tracks updated_playlist) 0)
                                None
                                ("https://tidal.com/browse/playlist/" ++ playlist_id)) ;;
             ret (RUpdatePlaylistResult
                    (UpdatePlaylistResult.mk "success" (Some updated)
                       ("Updated playlist '" ++ RemotePlaylist.name updated_playlist ++ "'")))
         end
     end)
    (failed_unless_tool_error "Failed to update playlist: ").

Definition delete_playlist (playlist_id : string) : Py Response :=
  authenticated <- ensure_authenticated ;;
  if negb authenticated then raise (ToolError not_authenticated) else
  try_except
    (found <- call (session_playlist playlist_id) ;;
     match found with
     | None => raise (ToolError (not_found "Playlist" playlist_id))
     | Some playlist =>
         let playlist_name := RemotePlaylist.name playlist in
         call (playlist_delete (RemotePlaylist.id playlist)) ;;
         ret (RDeletePlaylistResult
                (DeletePlaylistResult.mk "success" playlist_id
                   ("Deleted playlist '" ++ playlist_name ++ "'")))
     end)
    (failed_unless_tool_error "Failed to delete playlist: ").

(** *** Tool 15: content browsing *)

Definition get_album_tracks (album_id : string) : Py Response :=
  authenticated <- ensure_authenticated ;;
  if negb authenticated then raise (ToolError not_authenticated) else
  try_except
    (found <- call (session_album album_id) ;;
     match found with
     | None => raise (ToolError (not_found "Album" album_id))
     | Some album =>
         listed <- call (album_tracks (RemoteAlbum.id album)) ;;
         tracks <- for_each listed
           (fun track =>
              duration <- lift (getattr "duration" (RemoteTrack.duration track)) ;;
              lift (new_Track
                      (RemoteTrack.id track)
                      (RemoteTrack.name track)
                      (match RemoteTrack.artist track with
                       | Some a => RemoteArtist.name a
                       | None => "Unknown Artist"
                       end)
                      (RemoteAlbum.name album)
                      duration
                      ("https://tidal.com/browse/track/" ++ RemoteTrack.id track))) ;;
         ret (RAlbumTracks
                (AlbumTracks.mk "success" (RemoteAlbum.name album) album_id
                   (match RemoteAlbum.artist album with
                    | Some a => RemoteArtist.name a
                    | None => "Unknown Artist"
                    end)
                   (len tracks) tracks))
     end)
    (failed_unless_tool_error "Failed to get album tracks: ").

(** *** Tools 16-17: recommendations *)

Definition get_track_radio (track_id : string) (limit : Z) : Py Response :=
  authenticated <- ensure_authenticated ;;
  if negb authenticated then raise (ToolError not_authenticated) else
  try_except
    (let limit := Z.min (Z.max 1 limit) 100 in
     found <- call (session_track track_id) ;;
     match found with
     | None => raise (ToolError (not_found "Track" track_id))
     | Some track =>
         let seed_name :=
           RemoteTrack.name track ++ " by "
           ++ match RemoteTrack.artist track with
              | Some a => RemoteArtist.name a
              | None => "Unknown Artist"
              end in
         radio_tracks <- call (track_get_track_radio (RemoteTrack.id track) limit) ;;
         tracks <- for_each radio_tracks
           (fun t =>
              duration <- lift (getattr "duration" (RemoteTrack.duration t)) ;;
              lift (new_Track
                      (RemoteTrack.id t)
                      (RemoteTrack.name t)
                      (match RemoteTrack.artist t with
                       | Some a => RemoteArtist.name a
                       | None => "Unknown Artist"
                       end)
                      (match RemoteTrack.album t with
                       | Some a => RemoteAlbum.name a
                       | None => "Unknown Album"
                       end)
                      duration
                      ("https://tidal.com/browse/track/" ++ RemoteTrack.id t))) ;;
         ret (RRadioTracks
                (RadioTracks.mk "success" track_id "track" seed_name
                   (len tracks) tracks))
     end)
    (failed_unless_tool_error "Failed to get track radio: ").

Definition get_artist_radio (artist_id : string) (limit : Z) : Py Response :=
  authenticated <- ensure_authenticated ;;
  if negb authenticated then raise (ToolError not_authenticated) else
  try_except
    (let limit := Z.min (Z.max 1 limit) 100 in
     found <- call (session_artist artist_id) ;;
     match found with
     | None => raise (ToolError (not_found "Artist" artist_id))
     | Some artist =>
         radio_tracks <- call (artist_get_radio (RemoteArtist.id artist) limit) ;;
         tracks <- for_each radio_tracks
           (fun t =>
              duration <- lift (getattr "duration" (RemoteTrack.duration t)) ;;
              lift (new_Track
                      (RemoteTrack.id t)
                      (RemoteTrack.name t)
                      (match RemoteTrack.artist t with
                       | Some a => RemoteArtist.name a
                       | None => "Unknown Artist"
                       end)
                      (match RemoteTrack.album t with
                       | Some a => RemoteAlbum.name a
                       | None => "Unknown Album"
                       end)
                      duration
                      ("https://tidal.com/browse/track/" ++ RemoteTrack.id t))) ;;
         ret (RRadioTracks
                (RadioTracks.mk "success" artist_id "artist" (RemoteArtist.name artist)
                   (len tracks) tracks))
     end)
    (failed_unless_tool_error "Failed to get artist radio: ").

(** *** Tools 18-21: artist discovery *)

Definition get_artist (artist_id : string) : Py Response :=
  authenticated <- ensure_authenticated ;;
  if negb authenticated then raise (ToolError not_authenticated) else
  try_except
    (found <- call (session_artist artist_id) ;;
     match found with
     | None => raise (ToolError (not_found "Artist" artist_id))
     | Some artist =>
         bio <- try_except
                  (text <- call (artist_get_bio (RemoteArtist.id artist)) ;;
                   ret (Some text))
                  (fun _ => ret None) ;;
         ret (RArtistDetails
                (ArtistDetails.mk "success"
                   (Artist.mk
                      (RemoteArtist.id artist)
                      (RemoteArtist.name artist)
                      ("https://tidal.com/browse/artist/" ++ RemoteArtist.id artist))
                   bio))
     end)
    (failed_unless_tool_error "Failed to get artist: ").

Definition get_artist_albums (artist_id : string) (limit : Z) : Py Response :=
  authenticated <- ensure_authenticated ;;
  if negb authenticated then raise (ToolError not_authenticated) else
  try_except
    (let limit := Z.min (Z.max 1 limit) 50 in
     found <- call (session_artist artist_id) ;;
     match found with
     | None => raise (ToolError (not_found "Artist" artist_id))
     | Some artist =>
         artist_albums <- call (artist_get_albums (RemoteArtist.id artist) limit) ;;
         albums <- for_each artist_albums
           (fun album =>
              let release_date := release_date_of (RemoteAlbum.release_date album) in
              lift (new_Album
                      (RemoteAlbum.id album)
                      (RemoteAlbum.name album)
                      (match RemoteAlbum.artist album with
                       | Some a => RemoteArtist.name a
                       | None => RemoteArtist.name artist
                       end)
                      release_date
                      (getattr_default (RemoteAlbum.num_tracks album) 0)
                      (getattr_default (RemoteAlbum.duration album) 0)
                      ("https://tidal.com/browse/album/" ++ RemoteAlbum.id album))) ;;
         ret (RAlbumList (AlbumList.mk "success" None (len albums) albums))
     end)
    (failed_unless_tool_error "Failed to get artist albums: ").

Definition get_artist_top_tracks (artist_id : string) (limit : Z) : Py Response :=
  authenticated <- ensure_authenticated ;;
  if negb authenticated then raise (ToolError not_authenticated) else
  try_except
    (let limit := Z.min (Z.max 1 limit) 50 in
     found <- call (session_artist artist_id) ;;
     match found with
     | None => raise (ToolError (not_found "Artist" artist_id))
     | Some artist =>
         top_tracks <- call (artist_get_top_tracks (RemoteArtist.id artist) limit) ;;
         tracks <- for_each top_tracks
           (fun track =>
              duration <- lift (getattr "duration" (RemoteTrack.duration track)) ;;
              lift (new_Track
                      (RemoteTrack.id track)
                      (RemoteTrack.name track)
                      (match RemoteTrack.artist track with
                       | Some a => RemoteArtist.name a
                       | None => RemoteArtist.name artist
                       end)
                      (match RemoteTrack.album track with
                       | Some a => RemoteAlbum.name a
                       | None => "Unknown Album"
                       end)
                      duration
                      ("https://tidal.com/browse/track/" ++ RemoteTrack.id track))) ;;
         ret (RTrackList (TrackList.mk "success" None (len tracks) tracks))
     end)
    (failed_unless_tool_error "Failed to get artist top tracks: ").

Definition get_similar_artists (artist_id : string) (limit : Z) : Py Response :=
  authenticated <- ensure_authenticated ;;
  if negb authenticated then raise (ToolError not_authenticated) else
  try_except
    (let limit := Z.min (Z.max 1 limit) 50 in
     found <- call (session_artist artist_id) ;;
     match found with
     | None => raise (ToolError (not_found "Artist" artist_id))
     | Some artist =>
         similar <- call (artist_get_similar (RemoteArtist.id artist)) ;;
         let limited_similar :=
           match similar with
           | [] => []
           | _ => slice_to similar limit
           end in
         artists <- for_each limited_similar
           (fun a =>
              ret (Artist.mk
                     (RemoteArtist.id a)
                     (RemoteArtist.name a)
                     ("https://tidal.com/browse/artist/" ++ RemoteArtist.id a))) ;;
         ret (RArtistList (ArtistList.mk "success" None (len artists) artists))
     end)
    (failed_unless_tool_error "Failed to get similar artists: ").

(** *** Tools 22-25: extended favorites *)

Definition get_favorite_albums (limit : Z) : Py Response :=
  authenticated <- ensure_authenticated ;;
  if negb authenticated then raise (ToolError not_authenticated) else
  try_except
    (favorites <- call (favorites_albums limit) ;;
     albums <- for_each favorites
       (fun album =>
          let release_date := release_date_of (RemoteAlbum.release_date album) in
          lift (new_Album
                  (RemoteAlbum.id album)
                  (RemoteAlbum.name album)
                  (match RemoteAlbum.artist album with
                   | Some a => RemoteArtist.name a
                   | None => "Unknown Artist"
                   end)
                  release_date
                  (getattr_default (RemoteAlbum.num_tracks album) 0)
                  (getattr_default (RemoteAlbum.duration album) 0)
                  ("https://tidal.com/browse/album/" ++ RemoteAlbum.id album))) ;;
     ret (RAlbumList (AlbumList.mk "success" None (len albums) albums)))
    (failed "Failed to get favorite albums: ").

Definition get_favorite_artists (limit : Z) : Py Response :=
  authenticated <- ensure_authenticated ;;
  if negb authenticated then raise (ToolError not_authenticated) else
  try_except
    (favorites <- call (favorites_artists limit) ;;
     artists <- for_each favorites
       (fun artist =>
          ret (Artist.mk
                 (RemoteArtist.id artist)
                 (RemoteArtist.name artist)
                 ("https://tidal.com/browse/artist/" ++ RemoteArtist.id artist))) ;;
     ret (RArtistList (ArtistList.mk "success" None (len artists) artists)))
    (failed "Failed to get favorite artists: ").

Definition remove_track_from_favorites (track_id : string) : Py Response :=
  authenticated <- ensure_authenticated ;;
  if negb authenticated then raise (ToolError not_authenticated) else
  try_except
    (track_id_int <- lift (py_int track_id) ;;
     call (favorites_remove_track track_id_int) ;;
     ret (RRemoveFromFavoritesResult
            (RemoveFromFavoritesResult.mk "success" track_id "track"
               ("Track " ++ track_id ++ " removed from favorites"))))
    (fun e =>
       match e with
       | ValueError _ => raise (ToolError ("Invalid track ID format: " ++ track_id))
       | _ => failed "Failed to remove track from favorites: " e
       end).

Definition remove_album_from_favorites (album_id : string) : Py Response :=
  authenticated <- ensure_authenticated ;;
  if negb authenticated then raise (ToolError not_authenticated) else
  try_except
    (album_id_int <- lift (py_int album_id) ;;
     call (favorites_remove_album album_id_int) ;;
     ret (RRemoveFromFavoritesResult
            (RemoveFromFavoritesResult.mk "success" album_id "album"
               ("Album " ++ album_id ++ " removed from favorites"))))
    (fun e =>
       match e with
       | ValueError _ => raise (ToolError ("Invalid album ID format: " ++ album_id))
       | _ => failed "Failed to remove album from favorites: " e
       end).

(** *** Tools 26-27: album details *)

Definition get_album (album_id : string) : Py Response :=
  authenticated <- ensure_authenticated ;;
  if negb authenticated then raise (ToolError not_authenticated) else
  try_except
    (found <- call (session_album album_id) ;;
     match found with
     | None => raise (ToolError (not_found "Album" album_id))
     | Some album =>
         let release_date := release_date_of (RemoteAlbum.release_date album) in
         projected <- lift (new_Album
                              (RemoteAlbum.id album)
                              (RemoteAlbum.name album)
                              (match RemoteAlbum.artist album with
                               | Some a => RemoteArtist.name a
                               | None => "Unknown Artist"
                               end)
                              release_date
                              (getattr_default (RemoteAlbum.num_tracks album) 0)
                              (getattr_default (RemoteAlbum.duration album) 0)
                              ("https://tidal.com/browse/album/" ++ RemoteAlbum.id album)) ;;
         ret (RAlbumDetails (AlbumDetails.mk "success" projected))
     end)
    (failed_unless_tool_error "Failed to get album: ").

Definition get_similar_albums (album_id : string) (limit : Z) : Py Response :=
  authenticated <- ensure_authenticated ;;
  if negb authenticated then raise (ToolError not_authenticated) else
  try_except
    (let limit := Z.min (Z.max 1 limit) 50 in
     found <- call (session_album album_id) ;;
     match found with
     | None => raise (ToolError (not_found "Album" album_id))
     | Some album =>
         similar <- call (album_similar (RemoteAlbum.id album)) ;;
         let limited_similar :=
           match similar with
           | [] => []
           | _ => slice_to similar limit
           end in
         albums <- for_each limited_similar
           (fun a =>
              let release_date := release_date_of (RemoteAlbum.release_date a) in
              lift (new_Album
                      (RemoteAlbum.id a)
                      (RemoteAlbum.name a)
                      (match RemoteAlbum.artist a with
                       | Some r => RemoteArtist.name r
                       | None => "Unknown Artist"
                       end)
                      release_date
                      (getattr_default (RemoteAlbum.num_tracks a) 0)
                      (getattr_default (RemoteAlbum.duration a) 0)
                      ("https://tidal.com/browse/album/" ++ RemoteAlbum.id a))) ;;
         ret (RAlbumList (AlbumList.mk "success" None (len albums) albums))
     end)
    (failed_unless_tool_error "Failed to get similar albums: ").

(** *** The tool surface *)

(** A request to one of the 26 catalog and library tools (every tool but
    [login]), with its arguments. *)
Inductive Request : Type :=
| Search_tracks (query : string) (limit : Z)
| Search_albums (query : string) (limit : Z)
| Search_artists (query : string) (limit : Z)
| Search_playlists (query : string) (limit : Z)
| Get_favorite_tracks (limit : Z)
| Add_track_to_favorites (track_id : string)
| Get_user_playlists (limit : Z)
| Get_playlist_tracks (playlist_id : string) (limit : Z)
| Create_playlist (name description : string)
| Add_tracks_to_playlist (playlist_id : string) (track_ids : list string)
| Remove_tracks_from_playlist (playlist_id : string)
    (track_ids : option (list string)) (indices : option (list Z))
| Update_playlist (playlist_id : string) (name description : option string)
| Delete_playlist (playlist_id : string)
| Get_album_tracks (album_id : string)
| Get_track_radio (track_id : string) (limit : Z)
| Get_artist_radio (artist_id : string) (limit : Z)
| Get_artist (artist_id : string)
| Get_artist_albums (artist_id : string) (limit : Z)
| Get_artist_top_tracks (artist_id : string) (limit : Z)
| Get_similar_artists (artist_id : string) (limit : Z)
| Get_favorite_albums (limit : Z)
| Get_favorite_artists (limit : Z)
| Remove_track_from_favorites (track_id : string)
| Remove_album_from_favorites (album_id : string)
| Get_album (album_id : string)
| Get_similar_albums (album_id : string) (limit : Z).

Definition dispatch (r : Request) : Py Response :=
  match r with
  | Search_tracks q l => search_tracks q l
  | Search_albums q l => search_albums q l
  | Search_artists q l => search_artists q l
  | Search_playlists q l => search_playlists q l
  | Get_favorite_tracks l => get_favorite_tracks l
  | Add_track_to_favorites t => add_track_to_favorites t
  | Get_user_playlists l => get_user_playlists l
  | Get_playlist_tracks p l => get_playlist_tracks p l
  | Create_playlist n d => create_playlist n d
  | Add_tracks_to_playlist p ts => add_tracks_to_playlist p ts
  | Remove_tracks_from_playlist p ts ix => remove_tracks_from_playlist p ts ix
  | Update_playlist p n d => update_playlist p n d
  | Delete_playlist p => delete_playlist p
  | Get_album_tracks a => get_album_tracks a
  | Get_track_radio t l => get_track_radio t l
  | Get_artist_radio a l => get_artist_radio a l
  | Get_artist a => get_artist a
  | Get_artist_albums a l => get_artist_albums a l
  | Get_artist_top_tracks a l => get_artist_top_tracks a l
  | Get_similar_artists a l => get_similar_artists a l
  | Get_favorite_albums l => get_favorite_albums l
  | Get_favorite_artists l => get_favorite_artists l
  | Remove_track_from_favorites t => remove_track_from_favorites t
  | Remove_album_from_favorites a => remove_album_from_favorites a
  | Get_album a => get_album a
  | Get_similar_albums a l => get_similar_albums a l
  end.

End Server.

(** ** A reference environment

    A small in-memory stand-in for [tidalapi] and [json], used to run the
    server on concrete inputs.  The session object starts without a login;
    [load_oauth_session] stores the three tokens it is given, leaves the
    PKCE flag at the default of its omitted parameter, and asks the service
    for the session; [check_login] answers [False] on the spot while no
    login is held, and asks the service otherwise. *)

Module Ref.

Record State : Type := mk
  { session : Credentials.t;
    user : bool;
    accepted : list string;
    grant : Credentials.t;
    oauth_completes : bool;
    requests : nat }.

Definition blank : Credentials.t :=
  Credentials.mk JNull JNull JNull JNull (JBool false).

Definition device_grant : Credentials.t :=
  Credentials.mk (JStr "Bearer") (JStr "sid-7") (JStr "acc-1") (JStr "ref-1")
    (JBool false).

(** A process that has just started, against a service that accepts the
    token [acc-1] and completes an OAuth flow with [device_grant]. *)
Definition fresh : State := mk blank false ["acc-1"] device_grant true 0.

(** The same process after a login. *)
Definition logged_in : State := mk device_grant true ["acc-1"] device_grant true 0.

(** A new process against the same service. *)
Definition restart (s : State) : State :=
  mk blank false (accepted s) (grant s) (oauth_completes s) 0.

Definition asked (s : State) : State :=
  mk (session s) (user s) (accepted s) (grant s) (oauth_completes s) (S (requests s)).

Definition token_accepted (s : State) (token : json) : bool :=
  match token with
  | JStr a => existsb (String.eqb a) (accepted s)
  | _ => false
  end.

Definition queen : RemoteArtist.t := RemoteArtist.mk "8992" "Queen".
Definition bowie : RemoteArtist.t := RemoteArtist.mk "9001" "David Bowie".

Definition opera : RemoteAlbum.t :=
  RemoteAlbum.mk "77" "A Night at the Opera" (Some queen)
    (Val "1975-11-21") (Val 12) (Val 2590).

Definition bootleg : RemoteAlbum.t :=
  RemoteAlbum.mk "78" "Bootleg" None Absent Absent Absent.

Definition rhapsody : RemoteTrack.t :=
  RemoteTrack.mk "111" "Bohemian Rhapsody" (Some queen) (Some opera) (Val 354).

Definition untitled : RemoteTrack.t :=
  RemoteTrack.mk "222" "Untitled" None None (Val 60).

Definition pressure : RemoteTrack.t :=
  RemoteTrack.mk "333" "Under Pressure" (Some bowie) (Some opera) (Val 248).

Definition road_trip : RemotePlaylist.t :=
  RemotePlaylist.mk "p1" "Road Trip" NoneVal (Val 3) Absent.

Definition sketches : RemotePlaylist.t :=
  RemotePlaylist.mk "p2" "Sketches" (Val "drafts") Absent
    (Val (RemoteCreator.mk (Val "me"))).

Definition all_tracks : list RemoteTrack.t := [rhapsody; untitled; pressure].
Definition all_albums : list RemoteAlbum.t := [bootleg; opera].
Definition all_artists : list RemoteArtist.t := [queen; bowie].
Definition all_playlists : list RemotePlaylist.t := [road_trip; sketches].

Definition found {A} (id wanted : string) (x : A) : option A :=
  if String.eqb id wanted then Some x else None.

Definition perform (c : Call) (s : State) : Outcome (answer c) * State :=
  match c as c0 return Outcome (answer c0) * State with
  | load_oauth_session token_type access_token refresh_token _ =>
      let held :=
        Credentials.mk token_type (Credentials.session_id (session s))
          access_token refresh_token (JBool false) in
      if token_accepted s access_token then
        (Returned true,
         mk (Credentials.mk token_type (JStr "sid-7") access_token refresh_token
               (JBool false))
            true (accepted s) (grant s) (oauth_completes s) (S (requests s)))
      else
        match access_token with
        | JStr "refused" =>
            (Returned false,
             mk held (user s) (accepted s) (grant s) (oauth_completes s)
                (S (requests s)))
        | _ =>
            (Raised (PyError "HTTPError" "401 Client Error: Unauthorized"),
             mk held (user s) (accepted s) (grant s) (oauth_completes s)
                (S (requests s)))
        end
  | check_login =>
      if (user s && truthy (Credentials.session_id (session s)))%bool then
        (Returned (token_accepted s (Credentials.access_token (session s))), asked s)
      else (Returned false, s)
  | login_oauth => (Returned "link.tidal.com/ABCDE", asked s)
  | webbrowser_open _ => (Returned tt, s)
  | future_result =>
      if oauth_completes s then
        (Returned tt,
         mk (grant s) true (accepted s) (grant s) (oauth_completes s) (S (requests s)))
      else (Raised (PyError "TimeoutError" "You took too long to log in"), asked s)
  | session_search model _ limit =>
      (Returned
         match model with
         | MTrack => SearchResults.mk (Some (slice_to all_tracks limit)) None None None
         | MAlbum => SearchResults.mk None (Some (slice_to all_albums limit)) None None
         | MArtist => SearchResults.mk None None (Some (slice_to all_artists limit)) None
         | MPlaylist => SearchResults.mk None None None (Some (slice_to all_playlists limit))
         end,
       asked s)
  | favorites_tracks limit => (Returned (slice_to all_tracks limit), asked s)
  | favorites_albums limit => (Returned (slice_to all_albums limit), asked s)
  | favorites_artists limit => (Returned (slice_to all_artists limit), asked s)
  | favorites_add_track _ => (Returned tt, asked s)
  | favorites_remove_track _ => (Returned tt, asked s)
  | favorites_remove_album _ => (Returned tt, asked s)
  | user_playlists => (Returned all_playlists, asked s)
  | user_create_playlist name description =>
      (Returned (RemotePlaylist.mk "p3" name (Val description) (Val 0) Absent), asked s)
  | session_playlist id => (Returned (found id "p1" road_trip), asked s)
  | playlist_tracks _ => (Returned all_tracks, asked s)
  | playlist_add _ _ => (Returned tt, asked s)
  | playlist_remove_by_indices _ _ => (Returned tt, asked s)
  | playlist_remove_by_id _ _ => (Returned tt, asked s)
  | playlist_edit _ _ _ => (Returned tt, asked s)
  | playlist_delete _ => (Returned tt, asked s)
  | session_album id => (Returned (found id "77" opera), asked s)
  | album_tracks _ => (Returned [rhapsody; untitled], asked s)
  | album_similar _ => (Returned all_albums, asked s)
  | session_track id => (Returned (found id "111" rhapsody), asked s)
  | track_get_track_radio _ limit => (Returned (slice_to all_tracks limit), asked s)
  | session_artist id => (Returned (found id "8992" queen), asked s)
  | artist_get_radio _ limit => (Returned (slice_to all_tracks limit), asked s)
  | artist_get_bio _ => (Raised (PyError "HTTPError" "404 Client Error: Not Found"), asked s)
  | artist_get_albums _ limit => (Returned (slice_to all_albums limit), asked s)
  | artist_get_top_tracks _ limit => (Returned (slice_to [untitled; rhapsody] limit), asked s)
  | artist_get_similar _ => (Returned all_artists, asked s)
  end.

Definition env : Env State := mkEnv State perform session requests.

(** *** A JSON printer and parser *)

Definition quote : ascii := ascii_of_nat 34.
Definition backslash : ascii := ascii_of_nat 92.

Definition hex (n : nat) : ascii :=
  ascii_of_nat (if (n <? 10)%nat then 48 + n else 87 + n).

Definition unhex (c : ascii) : option nat :=
  let n := nat_of_ascii c in
  if ((48 <=? n) && (n <=? 57))%nat then Some (n - 48)%nat
  else if ((97 <=? n) && (n <=? 102))%nat then Some (n - 87)%nat
  else if ((65 <=? n) && (n <=? 70))%nat then Some (n - 55)%nat
  else None.

Definition escape (c : ascii) : string :=
  let n := nat_of_ascii c in
  if (n =? 34)%nat then String backslash (String quote EmptyString)
  else if (n =? 92)%nat then String backslash (String backslash EmptyString)
  else if (n =? 10)%nat then String backslash "n"
  else if (n =? 13)%nat then String backslash "r"
  else if (n =? 9)%nat then String backslash "t"
  else if (n =? 8)%nat then String backslash "b"
  else if (n =? 12)%nat then String backslash "f"
  else if ((n <? 32) || (126 <? n))%nat then
    String backslash ("u00" ++ String (hex (n / 16)) (String (hex (n mod 16)) EmptyString))
  else String c EmptyString.

Fixpoint escaped (s : string) : string :=
  match s with
  | EmptyString => EmptyString
  | String c rest => escape c ++ escaped rest
  end.

Definition dump_string (s : string) : string :=
  String quote (escaped s ++ String quote EmptyString).

Definition dump_int (z : Z) : string := NilEmpty.string_of_int (Z.to_int z).

Fixpoint dump (v : json) : string :=
  match v with
  | JNull => "null"
  | JBool true => "true"
  | JBool false => "false"
  | JInt z => dump_int z
  | JStr s => dump_string s
  | JList l =>
      "[" ++ (fix items (l : list json) : string :=
                match l with
                | [] => EmptyString
                | [x] => dump x
                | x :: rest => dump x ++ ", " ++ items rest
                end) l ++ "]"
  | JDict kv =>
      "{" ++ (fix members (kv : list (string * json)) : string :=
                match kv with
                | [] => EmptyString
                | [(k, x)] => dump_string k ++ ": " ++ dump x
                | (k, x) :: rest => dump_string k ++ ": " ++ dump x ++ ", " ++ members rest
                end) kv ++ "}"
  end.

Definition is_blank (c : ascii) : bool :=
  let n := nat_of_ascii c in
  ((n =? 32) || (n =? 9) || (n =? 10) || (n =? 13))%nat.

Fixpoint skip (s : string) : string :=
  match s with
  | String c rest => if is_blank c then skip rest else s
  | EmptyString => EmptyString
  end.

Fixpoint drop (n : nat) (s : string) : string :=
  match n, s with
  | S n', String _ rest => drop n' rest
  | _, _ => s
  end.

Definition keyword (word : string) (v : json) (s : string) : option (json * string) :=
  if String.prefix word s then Some (v, drop (String.length word) s) else None.

(** The text after an opening quote: the string it spells and what follows
    the closing quote. *)
Fixpoint string_body (s acc : string) : option (string * string) :=
  match s with
  | EmptyString => None
  | String c rest =>
      if Ascii.eqb c quote then Some (string_rev acc, rest)
      else if Ascii.eqb c backslash then
        match rest with
        | String e rest' =>
            let plain (x : ascii) := string_body rest' (String x acc) in
            if Ascii.eqb e quote then plain quote
            else if Ascii.eqb e backslash then plain backslash
            else if Ascii.eqb e "/" then plain "/"%char
            else if Ascii.eqb e "n" then plain (ascii_of_nat 10)
            else if Ascii.eqb e "r" then plain (ascii_of_nat 13)
            else if Ascii.eqb e "t" then plain (ascii_of_nat 9)
            else if Ascii.eqb e "b" then plain (ascii_of_nat 8)
            else if Ascii.eqb e "f" then plain (ascii_of_nat 12)
            else if Ascii.eqb e "u" then
              match rest' with
              | String "0" (String "0" (String h (String l rest''))) =>
                  match unhex h, unhex l with
                  | Some a, Some b =>
                      string_body rest'' (String (ascii_of_nat (16 * a + b)) acc)
                  | _, _ => None
                  end
              | _ => None
              end
            else None
        | EmptyString => None
        end
      else if (nat_of_ascii c <? 32)%nat then None
      else string_body rest (String c acc)
  end.

Fixpoint number (s : string) (acc : Z) (seen : bool) : option (Z * string) :=
  match s with
  | String c rest =>
      match digit_of c with
      | Some d => number rest (10 * acc + d) true
      | None => if seen then Some (acc, s) else None
      end
  | EmptyString => if seen then Some (acc, s) else None
  end.

(** [d[k] = v]: a repeated key keeps its place and takes the new value. *)
Fixpoint dict_set (kv : list (string * json)) (k : string) (v : json)
  : list (string * json) :=
  match kv with
  | [] => [(k, v)]
  | (k', v') :: rest =>
      if String.eqb k' k then (k', v) :: rest else (k', v') :: dict_set rest k v
  end.

Fixpoint items (value : string -> option (json * string)) (n : nat)
  (s : string) (acc : list json) : option (json * string) :=
  match n with
  | O => None
  | S n' =>
      match value s with
      | Some (v, rest) =>
          match skip rest with
          | String "," rest' => items value n' rest' (acc ++ [v])
          | String "]" rest' => Some (JList (acc ++ [v]), rest')
          | _ => None
          end
      | None => None
      end
  end.

Fixpoint members (value : string -> option (json * string)) (n : nat)
  (s : string) (acc : list (string * json)) : option (json * string) :=
  match n with
  | O => None
  | S n' =>
      match skip s with
      | String c after =>
          if Ascii.eqb c quote then
            match string_body after EmptyString with
            | Some (k, rest) =>
                match skip rest with
                | String ":" rest' =>
                    match value rest' with
                    | Some (v, rest'') =>
                        match skip rest'' with
                        | String "," more => members value n' more (dict_set acc k v)
                        | String "}" more => Some (JDict (dict_set acc k v), more)
                        | _ => None
                        end
                    | None => None
                    end
                | _ => None
                end
            | None => None
            end
          else None
      | EmptyString => None
      end
  end.

Fixpoint value (fuel : nat) (s : string) : option (json * string) :=
  match fuel with
  | O => None
  | S fuel' =>
      match skip s with
      | String "n" _ as t => keyword "null" JNull t
      | String "t" _ as t => keyword "true" (JBool true) t
      | String "f" _ as t => keyword "false" (JBool false) t
      | String "[" rest =>
          match skip rest with
          | String "]" rest' => Some (JList [], rest')
          | _ => items (value fuel') fuel' rest []
          end
      | String "{" rest =>
          match skip rest with
          | String "}" rest' => Some (JDict [], rest')
          | _ => members (value fuel') fuel' rest []
          end
      | String "-" rest =>
          match number rest 0 false with
          | Some (z, rest') => Some (JInt (- z), rest')
          | None => None
          end
      | String c rest as t =>
          if Ascii.eqb c quote then
            match string_body rest EmptyString with
            | Some (text, rest') => Some (JStr text, rest')
            | None => None
            end
          else
            match number t 0 false with
            | Some (z, rest') => Some (JInt z, rest')
            | None => None
            end
      | EmptyString => None
      end
  end.

(** [json.loads]; a text that is not JSON raises [JSONDecodeError], a
    [ValueError]. *)
Definition parse (s : string) : Outcome json :=
  match value (S (String.length s)) s with
  | Some (v, rest) =>
      match skip rest with
      | EmptyString => Returned v
      | _ => Raised (ValueError "Extra data")
      end
  | None => Raised (ValueError "Expecting value")
  end.

Definition codec : Codec := mkCodec dump parse.

(** *** Worlds to run the server in *)

(** A first start: no session file, no login. *)
Definition first_start : World State := mkWorld None fresh [].

(** A start with the session file of an earlier login. *)
Definition with_session_file : World State :=
  mkWorld (Some (dump (session_data device_grant))) fresh [].

(** A start with a session file whose token the service no longer accepts. *)
Definition revoked_grant : Credentials.t :=
  Credentials.mk (JStr "Bearer") (JStr "sid-3") (JStr "acc-0") (JStr "ref-0")
    (JBool false).

Definition with_stale_file : World State :=
  mkWorld (Some (dump (session_data revoked_grant))) fresh [].

(** A start with a session file that is not JSON. *)
Definition with_garbled_file : World State :=
  mkWorld (Some "{token_type: Bearer") fresh [].

(** A service whose OAuth flow yields a PKCE session. *)
Definition pkce_grant : Credentials.t :=
  Credentials.mk (JStr "Bearer") (JStr "sid-7") (JStr "acc-1") (JStr "ref-1")
    (JBool true).

Definition first_start_pkce : World State :=
  mkWorld None (mk blank false ["acc-1"] pkce_grant true 0) [].

End Ref.

(** ** Observations on responses and on the log *)

(** The guard every tool opens with. *)
Definition guarded {L} (env : Env L) (codec : Codec) (body : M L Response)
  : M L Response :=
  (authenticated <- ensure_authenticated env codec ;;
   if negb authenticated then raise (ToolError not_authenticated) else body)%py.

(** The [count] field of a list model equals the length of its list. *)
Definition count_matches (r : Response) : Prop :=
  match r with
  | RTrackList t => TrackList.count t = len (TrackList.tracks t)
  | RAlbumList t => AlbumList.count t = len (AlbumList.albums t)
  | RArtistList t => ArtistList.count t = len (ArtistList.artists t)
  | RPlaylistList t => PlaylistList.count t = len (PlaylistList.playlists t)
  | RPlaylistTracks t => PlaylistTracks.count t = len (PlaylistTracks.tracks t)
  | RAlbumTracks t => AlbumTracks.count t = len (AlbumTracks.tracks t)
  | RRadioTracks t => RadioTracks.count t = len (RadioTracks.tracks t)
  | _ => True
  end.

(** The tools whose result is a list model, and the list models. *)
Definition returns_list (r : Request) : bool :=
  match r with
  | Search_tracks _ _ | Search_albums _ _ | Search_artists _ _
  | Search_playlists _ _ | Get_favorite_tracks _ | Get_user_playlists _
  | Get_playlist_tracks _ _ | Get_album_tracks _ | Get_track_radio _ _
  | Get_artist_radio _ _ | Get_artist_albums _ _ | Get_artist_top_tracks _ _
  | Get_similar_artists _ _ | Get_favorite_albums _ | Get_favorite_artists _
  | Get_similar_albums _ _ => true
  | _ => false
  end.

Definition is_list_model (r : Response) : bool :=
  match r with
  | RTrackList _ | RAlbumList _ | RArtistList _ | RPlaylistList _
  | RPlaylistTracks _ | RAlbumTracks _ | RRadioTracks _ => true
  | _ => false
  end.

(** The ways the stored session can fail the check: the file does not
    parse, one of the three fields read from it is missing, the load
    raises, or the load succeeds and [check_login] then refuses (or
    raises). *)
Inductive stored_session_fails {L} (env : Env L) (codec : Codec) (l : L)
  (content : string) : Prop :=
| parse_error (e : exn) :
    loads codec content = Raised e ->
    stored_session_fails env codec l content
| missing_field (data : json) (field : string) (e : exn) :
    loads codec content = Returned data ->
    In field ["token_type"; "access_token"; "refresh_token"] ->
    wrapped data field = Raised e ->
    stored_session_fails env codec l content
| load_exception (data token_type access_token refresh_token : json)
    (e : exn) (l' : L) :
    loads codec content = Returned data ->
    wrapped data "token_type" = Returned token_type ->
    wrapped data "access_token" = Returned access_token ->
    wrapped data "refresh_token" = Returned refresh_token ->
    perform env (load_oauth_session token_type access_token refresh_token JNull) l
    = (Raised e, l') ->
    stored_session_fails env codec l content
| check_refused (data token_type access_token refresh_token : json)
    (l1 l2 : L) :
    loads codec content = Returned data ->
    wrapped data "token_type" = Returned token_type ->
    wrapped data "access_token" = Returned access_token ->
    wrapped data "refresh_token" = Returned refresh_token ->
    perform env (load_oauth_session token_type access_token refresh_token JNull) l
    = (Returned true, l1) ->
    perform env check_login l1 = (Returned false, l2) ->
    stored_session_fails env codec l content
| check_exception (data token_type access_token refresh_token : json)
    (e : exn) (l1 l2 : L) :
    loads codec content = Returned data ->
    wrapped data "token_type" = Returned token_type ->
    wrapped data "access_token" = Returned access_token ->
    wrapped data "refresh_token" = Returned refresh_token ->
    perform env (load_oauth_session token_type access_token refresh_token JNull) l
    = (Returned true, l1) ->
    perform env check_login l1 = (Raised e, l2) ->
    stored_session_fails env codec l content.

(** The two Bad-Request errors of [remove_tracks_from_playlist]. *)
Definition bad_request (e : exn) : Prop :=
  e = ToolError "Must provide either track_ids or indices to remove"
  \/ e = ToolError "Provide either track_ids or indices, not both".

(** The call by which [ensure_authenticated] hands a stored session to the
    session object. *)
Definition load_of (c : Credentials.t) : Call :=
  load_oauth_session
    (py_or (Credentials.token_type c) (JStr "Bearer"))
    (Credentials.access_token c)
    (Credentials.refresh_token c)
    JNull.

(** What the check does with the three values read from the file. *)
Definition load_then_check {L} (env : Env L)
  (token_type access_token refresh_token : json) : M L bool :=
  try_except
    (result <- call env
                 (load_oauth_session token_type access_token refresh_token JNull) ;;
     if (result : bool) then
       is_valid <- call env check_login ;;
       (if negb (is_valid : bool) then file_unlink else ret tt) ;;
       ret is_valid
     else ret false)%py
    (fun _ => file_unlink ;; ret false)%py.

(** *** What a run was given and what it gave back *)

(** The entities a response carries. *)
Definition tracks_of (r : Response) : list Track.t :=
  match r with
  | RTrackList t => TrackList.tracks t
  | RPlaylistTracks t => PlaylistTracks.tracks t
  | RAlbumTracks t => AlbumTracks.tracks t
  | RRadioTracks t => RadioTracks.tracks t
  | _ => []
  end.

Definition albums_of (r : Response) : list Album.t :=
  match r with
  | RAlbumList t => AlbumList.albums t
  | RAlbumDetails t => [AlbumDetails.album t]
  | _ => []
  end.

Definition artists_of (r : Response) : list Artist.t :=
  match r with
  | RArtistList t => ArtistList.artists t
  | _ => []
  end.

Definition playlists_of (r : Response) : list Playlist.t :=
  match r with
  | RPlaylistList t => PlaylistList.playlists t
  | _ => []
  end.

(** The remote objects one exchange supplied, by kind. *)
Definition tracks_answered (i : Interaction) : list RemoteTrack.t :=
  match i with
  | interaction c out =>
      match c as c0 return Outcome (answer c0) -> list RemoteTrack.t with
      | session_search MTrack _ _ => fun out =>
          match out with
          | Returned s => match SearchResults.tracks s with Some l => l | None => [] end
          | Raised _ => []
          end
      | favorites_tracks _ => fun out => match out with Returned l => l | Raised _ => [] end
      | playlist_tracks _ => fun out => match out with Returned l => l | Raised _ => [] end
      | album_tracks _ => fun out => match out with Returned l => l | Raised _ => [] end
      | track_get_track_radio _ _ => fun out => match out with Returned l => l | Raised _ => [] end
      | artist_get_radio _ _ => fun out => match out with Returned l => l | Raised _ => [] end
      | artist_get_top_tracks _ _ => fun out => match out with Returned l => l | Raised _ => [] end
      | _ => fun _ => []
      end out
  end.

Definition albums_answered (i : Interaction) : list RemoteAlbum.t :=
  match i with
  | interaction c out =>
      match c as c0 return Outcome (answer c0) -> list RemoteAlbum.t with
      | session_search MAlbum _ _ => fun out =>
          match out with
          | Returned s => match SearchResults.albums s with Some l => l | None => [] end
          | Raised _ => []
          end
      | favorites_albums _ => fun out => match out with Returned l => l | Raised _ => [] end
      | artist_get_albums _ _ => fun out => match out with Returned l => l | Raised _ => [] end
      | album_similar _ => fun out => match out with Returned l => l | Raised _ => [] end
      | session_album _ => fun out => match out with Returned (Some a) => [a] | _ => [] end
      | _ => fun _ => []
      end out
  end.

Definition artists_answered (i : Interaction) : list RemoteArtist.t :=
  match i with
  | interaction c out =>
      match c as c0 return Outcome (answer c0) -> list RemoteArtist.t with
      | session_search MArtist _ _ => fun out =>
          match out with
          | Returned s => match SearchResults.artists s with Some l => l | None => [] end
          | Raised _ => []
          end
      | favorites_artists _ => fun out => match out with Returned l => l | Raised _ => [] end
      | artist_get_similar _ => fun out => match out with Returned l => l | Raised _ => [] end
      | _ => fun _ => []
      end out
  end.

Definition playlists_answered (i : Interaction) : list RemotePlaylist.t :=
  match i with
  | interaction c out =>
      match c as c0 return Outcome (answer c0) -> list RemotePlaylist.t with
      | session_search MPlaylist _ _ => fun out =>
          match out with
          | Returned s => match SearchResults.playlists s with Some l => l | None => [] end
          | Raised _ => []
          end
      | user_playlists => fun out => match out with Returned l => l | Raised _ => [] end
      | _ => fun _ => []
      end out
  end.

(** What the last exchange of a run supplied ([new] is newest first). *)
Definition supplied {A} (answered : Interaction -> list A) (new : list Interaction)
  : list A :=
  match new with
  | i :: _ => answered i
  | [] => []
  end.

(** The artist, or album, a run looked up by id. *)
Definition artist_answered (i : Interaction) : option RemoteArtist.t :=
  match i with
  | interaction c out =>
      match c as c0 return Outcome (answer c0) -> option RemoteArtist.t with
      | session_artist _ => fun out => match out with Returned o => o | Raised _ => None end
      | _ => fun _ => None
      end out
  end.

Definition album_answered (i : Interaction) : option RemoteAlbum.t :=
  match i with
  | interaction c out =>
      match c as c0 return Outcome (answer c0) -> option RemoteAlbum.t with
      | session_album _ => fun out => match out with Returned o => o | Raised _ => None end
      | _ => fun _ => None
      end out
  end.

Fixpoint looked_up {A} (answered : Interaction -> option A) (new : list Interaction)
  : option A :=
  match new with
  | [] => None
  | i :: rest =>
      match answered i with
      | Some a => Some a
      | None => looked_up answered rest
      end
  end.

(** The part of the supplied list a tool projects. *)
Definition selected {A} (r : Request) (xs : list A) : list A :=
  match r with
  | Get_user_playlists limit => if negb (limit =? 0) then slice_to xs limit else xs
  | Get_playlist_tracks _ limit => if negb (limit =? 0) then slice_to xs limit else xs
  | Get_similar_artists _ limit => slice_to xs (Z.min (Z.max 1 limit) 50)
  | Get_similar_albums _ limit => slice_to xs (Z.min (Z.max 1 limit) 50)
  | _ => xs
  end.

(** The artist name a tool falls back on when an object has no artist. *)
Definition artist_fallback (r : Request) (new : list Interaction) : string :=
  match r with
  | Get_artist_albums _ _ | Get_artist_top_tracks _ _ =>
      match looked_up artist_answered new with
      | Some a => RemoteArtist.name a
      | None => "Unknown Artist"
      end
  | _ => "Unknown Artist"
  end.

(** The album name a tool gives a track. *)
Definition album_name_for (r : Request) (new : list Interaction)
  (album : option RemoteAlbum.t) : string :=
  match r with
  | Get_album_tracks _ =>
      match looked_up album_answered new with
      | Some a => RemoteAlbum.name a
      | None => "Unknown Album"
      end
  | _ =>
      match album with
      | Some a => RemoteAlbum.name a
      | None => "Unknown Album"
      end
  end.

(** A track, album, artist or playlist of the output built from a remote
    object. *)
Definition track_projected (artist_default : string)
  (album_name : option RemoteAlbum.t -> string)
  (x : RemoteTrack.t) (y : Track.t) : Prop :=
  y = Track.mk
        (RemoteTrack.id x)
        (RemoteTrack.name x)
        (match RemoteTrack.artist x with
         | Some a => RemoteArtist.name a
         | None => artist_default
         end)
        (album_name (RemoteTrack.album x))
        (Track.duration_seconds y)
        ("https://tidal.com/browse/track/" ++ RemoteTrack.id x)
  /\ RemoteTrack.duration x = Val (Track.duration_seconds y).

Definition album_projected (artist_default : string)
  (x : RemoteAlbum.t) (y : Album.t) : Prop :=
  y = Album.mk
        (RemoteAlbum.id x)
        (RemoteAlbum.name x)
        (match RemoteAlbum.artist x with
         | Some a => RemoteArtist.name a
         | None => artist_default
         end)
        (release_date_of (RemoteAlbum.release_date x))
        (Album.num_tracks y)
        (Album.duration_seconds y)
        ("https://tidal.com/browse/album/" ++ RemoteAlbum.id x)
  /\ getattr_default (RemoteAlbum.num_tracks x) 0 = Some (Album.num_tracks y)
  /\ getattr_default (RemoteAlbum.duration x) 0 = Some (Album.duration_seconds y).

Definition artist_projected (x : RemoteArtist.t) (y : Artist.t) : Prop :=
  y = Artist.mk
        (RemoteArtist.id x)
        (RemoteArtist.name x)
        ("https://tidal.com/browse/artist/" ++ RemoteArtist.id x).

Definition playlist_projected (x : RemotePlaylist.t) (y : Playlist.t) : Prop :=
  Playlist.id y = RemotePlaylist.id x
  /\ Playlist.name y = RemotePlaylist.name x
  /\ Playlist.description y = description_or_empty (RemotePlaylist.description x)
  /\ getattr_default (RemotePlaylist.num_tracks x) 0 = Some (Playlist.track_count y)
  /\ Playlist.url y = "https://tidal.com/browse/playlist/" ++ RemotePlaylist.id x.

(** The tools that fall back on the artist, or album, they were asked
    about. *)
Definition uses_requested_artist (r : Request) : bool :=
  match r with
  | Get_artist_albums _ _ | Get_artist_top_tracks _ _ => true
  | _ => false
  end.

Definition uses_requested_album (r : Request) : bool :=
  match r with
  | Get_album_tracks _ => true
  | _ => false
  end.

(** The limit a call carries. *)
Definition limit_arg (c : Call) : option Z :=
  match c with
  | session_search _ _ limit => Some limit
  | favorites_tracks limit => Some limit
  | favorites_albums limit => Some limit
  | favorites_artists limit => Some limit
  | track_get_track_radio _ limit => Some limit
  | artist_get_radio _ limit => Some limit
  | artist_get_albums _ limit => Some limit
  | artist_get_top_tracks _ limit => Some limit
  | _ => None
  end.



(** The calls of the session check. *)
Definition session_call (c : Call) : bool :=
  match c with
  | load_oauth_session _ _ _ _ | check_login => true
  | _ => false
  end.

(** ** Tactics *)

Ltac head_of t :=
  lazymatch t with
  | ?f _ => head_of f
  | _ => t
  end.

(** Case analysis on a run: split on whatever the next step of the
    computation inspects, until every hypothesis is a plain equation. *)
Ltac run_unfold :=
  cbv beta iota delta [bind try_except ret raise lift failed
                       failed_unless_tool_error call fst snd] in *.

Ltac run_cases :=
  repeat (run_unfold;
          try discriminate;
          match goal with
          | H : context [match ?x with _ => _ end] |- _ =>
              first [ is_var x; destruct x | destruct x eqn:? ]
          end);
  run_unfold; try discriminate.

Ltac run_done :=
  repeat match goal with
         | H : (_, _) = (_, _) |- _ => inversion H; clear H; subst
         | H : Returned _ = Returned _ |- _ => inversion H; clear H; subst
         | H : Some _ = Some _ |- _ => inversion H; clear H; subst
         end.

Ltac rewrite_known :=
  match goal with
  | H : ?lhs = _ |- context [?lhs] => rewrite H
  end.

(** Run [ensure_authenticated] as far as the equations at hand decide. *)
Ltac check_run :=
  unfold ensure_authenticated, bind, try_except, file_exists, file_read,
    file_unlink, lift, call, ret;
  repeat (cbn beta iota zeta delta [session_file lib log negb]; rewrite_known);
  cbn beta iota zeta delta [session_file lib log negb].


(** The entries of [l] above [stop]. *)
Ltac prefix_of l stop :=
  lazymatch l with
  | stop => constr:(@nil Interaction)
  | ?i :: ?rest => let p := prefix_of rest stop in constr:(i :: p)
  end.

(** ** The session check comes first *)

Section Guard.

Context {L : Type}.
Variable env : Env L.
Variable codec : Codec.

Lemma dispatch_guarded (r : Request) :
  exists body, dispatch env codec r = guarded env codec body.
Proof.
  destruct r; eexists; unfold dispatch, guarded;
    match goal with |- ?tool = _ => let h := head_of tool in unfold h end;
    reflexivity.
Qed.

End Guard.

Section GuardFacts.

Context {L : Type}.
Variable env : Env L.
Variable codec : Codec.
Variable body : M L Response.

Lemma guarded_refused (w w' : World L) :
  ensure_authenticated env codec w = (Returned false, w') ->
  guarded env codec body w = (Raised (ToolError not_authenticated), w').
Proof.
  intros Hcheck. unfold guarded, bind. rewrite Hcheck. reflexivity.
Qed.

Lemma guarded_raised (w w' : World L) (e : exn) :
  ensure_authenticated env codec w = (Raised e, w') ->
  guarded env codec body w = (Raised e, w').
Proof.
  intros Hcheck. unfold guarded, bind. rewrite Hcheck. reflexivity.
Qed.

Lemma guarded_admitted (w w' : World L) :
  ensure_authenticated env codec w = (Returned true, w') ->
  guarded env codec body w = body w'.
Proof.
  intros Hcheck. unfold guarded, bind. rewrite Hcheck. reflexivity.
Qed.

End GuardFacts.


(** C1. Every one of the 26 catalog and library tools is the guard
    followed by its body: it runs [ensure_authenticated] first, and when the
    check answers [False] it raises the "Not authenticated" [ToolError] and
    leaves the world exactly as the check left it, so nothing was delegated
    to the remote client. *)
Theorem tool_refused_when_check_fails {L} (env : Env L) (codec : Codec)
  (r : Request) (w w' : World L) :
  ensure_authenticated env codec w = (Returned false, w') ->
  dispatch env codec r w = (Raised (ToolError not_authenticated), w')
  /\ exists body, dispatch env codec r = guarded env codec body.
Proof.
  intros Hcheck.
  destruct (dispatch_guarded env codec r) as [body Hbody].
  split.
  - rewrite Hbody. now apply guarded_refused.
  - exists body. exact Hbody.
Qed.

Lemma tool_refused_when_check_fails_witness :
  dispatch Ref.env Ref.codec (Create_playlist "Road Trip" "") Ref.with_stale_file
  = (Raised (ToolError not_authenticated),
     mkWorld None
       (Ref.mk (Credentials.mk (JStr "Bearer") JNull (JStr "acc-0") (JStr "ref-0")
                  (JBool false))
          false ["acc-1"] Ref.device_grant true 1)
       [interaction
          (load_oauth_session (JStr "Bearer") (JStr "acc-0") (JStr "ref-0") JNull)
          (Raised (PyError "HTTPError" "401 Client Error: Unauthorized"))]).
Proof.
  apply (tool_refused_when_check_fails Ref.env Ref.codec).
  vm_compute. reflexivity.
Defined.

(** A check that raises is not caught by the tool either. *)
Lemma tool_raises_when_check_raises {L} (env : Env L) (codec : Codec)
  (r : Request) (w w' : World L) (e : exn) :
  ensure_authenticated env codec w = (Raised e, w') ->
  dispatch env codec r w = (Raised e, w').
Proof.
  intros Hcheck.
  destruct (dispatch_guarded env codec r) as [body Hbody].
  rewrite Hbody. now apply guarded_raised.
Qed.



(** ** Loops and the log *)

Section Loops.

Context {L A B : Type}.
Variable f : A -> M L B.

(** A loop that finished built each output from the input at its place. *)
Lemma for_each_returned (xs : list A) :
  forall (w w' : World L) (ys : list B),
    for_each xs f w = (Returned ys, w') ->
    Forall2 (fun x y => exists wa wb, f x wa = (Returned y, wb)) xs ys.
Proof.
  induction xs as [| x rest IH]; intros w w' ys Hrun.
  - cbn in Hrun. inversion Hrun. constructor.
  - cbn [for_each] in Hrun. unfold bind in Hrun.
    destruct (f x w) as [[e | y] w1] eqn:Hx; [discriminate Hrun|].
    destruct (for_each rest f w1) as [[e | ys'] w2] eqn:Hrest; [discriminate Hrun|].
    unfold ret in Hrun. inversion Hrun; subst.
    constructor; [exists w, w1; exact Hx | eapply IH; exact Hrest].
Qed.

(** A loop whose body leaves the world alone leaves the world alone. *)
Lemma for_each_world (xs : list A) :
  (forall x wa, snd (f x wa) = wa) ->
  forall w : World L, snd (for_each xs f w) = w.
Proof.
  intros Hpure. induction xs as [| x rest IH]; intros w.
  - reflexivity.
  - cbn [for_each]. unfold bind.
    specialize (Hpure x w). destruct (f x w) as [[e | y] w1]; cbn in Hpure; subst w1.
    + reflexivity.
    + specialize (IH w). destruct (for_each rest f w) as [[e | ys] w2];
        cbn in IH; subst w2; reflexivity.
Qed.

End Loops.

(** The session check adds only its own calls to the log. *)
Lemma ensure_authenticated_calls {L} (env : Env L) (codec : Codec) (w : World L) :
  exists new,
    log (snd (ensure_authenticated env codec w)) = (new ++ log w)%list
    /\ Forall (fun i => session_call (made i) = true) new.
Proof.
  destruct (ensure_authenticated env codec w) as [out w'] eqn:Hrun.
  unfold ensure_authenticated, file_exists, file_read, file_unlink in Hrun.
  run_cases; run_done; cbn [snd log];
    match goal with
    | |- exists new, ?l = (_ ++ ?stop)%list /\ _ =>
        let p := prefix_of l stop in
        exists p; split; [reflexivity | repeat constructor]
    end.
Qed.

(** ** Successful runs *)

(** C9. Whenever a tool succeeds with one of the seven list models
    (TrackList, AlbumList, ArtistList, PlaylistList, PlaylistTracks,
    AlbumTracks, RadioTracks), its [count] field is the length of the list
    it carries; and a list-returning tool succeeds with a list model. *)
Theorem count_is_length_of_list {L} (env : Env L) (codec : Codec)
  (r : Request) (w w' : World L) (resp : Response) :
  dispatch env codec r w = (Returned resp, w') ->
  count_matches resp /\ is_list_model resp = returns_list r.
Proof.
  intros Hrun.
  destruct r; unfold dispatch in Hrun;
    match type of Hrun with ?tool _ = _ => let h := head_of tool in unfold h in Hrun end.
  all: run_cases.
  all: run_done; split; reflexivity.
Qed.

Lemma count_is_length_of_list_witness :
  exists resp w',
    dispatch Ref.env Ref.codec (Get_playlist_tracks "p1" 2) Ref.with_session_file
    = (Returned resp, w')
    /\ count_matches resp /\ is_list_model resp = true.
Proof.
  eexists. eexists. split.
  - vm_compute. reflexivity.
  - eapply (count_is_length_of_list Ref.env Ref.codec
              (Get_playlist_tracks "p1" 2) Ref.with_session_file).
    vm_compute. reflexivity.
Defined.

(** ** What a successful run returns *)

(** The body of a loop that only builds a value leaves the world alone. *)
Ltac pure_body :=
  intros ? ?; cbv beta;
  repeat match goal with
         | |- context [match ?t with _ => _ end] => destruct t
         end;
  reflexivity.

(** Replace the world a loop ends in by the one it started from, and
    record how its outputs were built. *)
Ltac loop_facts :=
  repeat match goal with
         | H : for_each ?xs ?f ?w1 = (_, ?w2) |- _ =>
             let Hw := fresh "Hworld" in
             assert (Hw : w2 = w1)
               by (rewrite <- (for_each_world f xs ltac:(pure_body) w1), H;
                   reflexivity);
             first [subst w2 | rewrite Hw in *; clear Hw];
             try (let HF := fresh "Hbuilt" in
                  pose proof (for_each_returned f xs _ _ _ H) as HF);
             clear H
         end.

(** One element of a finished loop. *)
Ltac built_one :=
  let x := fresh "x" in
  let y := fresh "y" in
  let wa := fresh "wa" in
  let wb := fresh "wb" in
  let H := fresh "H" in
  intros x y [wa [wb H]];
  repeat match goal with
         | F : Forall2 _ _ _ |- _ => clear F
         end;
  cbv beta in H.

(** Close a goal [x] projected to [y] from the equations at hand. *)
Ltac projected_done :=
  unfold new_Track, new_Album, new_Playlist, required, getattr, getattr_default in *;
  repeat (try discriminate;
          match goal with
          | E : context [match ?t with _ => _ end] |- _ => destruct t eqn:?
          end);
  try discriminate;
  run_done;
  unfold track_projected, album_projected, artist_projected,
    playlist_projected, album_name_for;
  repeat (cbn; rewrite_known); cbn;
  repeat split; try reflexivity; congruence.

Lemma slice_to_nil {A} (k : Z) : slice_to (@nil A) k = [].
Proof.
  unfold slice_to. destruct (0 <=? k); apply firstn_nil.
Qed.

Lemma run_projects {L} (env : Env L) (codec : Codec) (r : Request)
  (w w' : World L) (resp : Response) :
  dispatch env codec r w = (Returned resp, w') ->
  exists new,
    log w' = (new ++ log w)%list
    /\ Forall2 (track_projected (artist_fallback r new) (album_name_for r new))
         (selected r (supplied tracks_answered new)) (tracks_of resp)
    /\ Forall2 (album_projected (artist_fallback r new))
         (selected r (supplied albums_answered new)) (albums_of resp)
    /\ Forall2 artist_projected
         (selected r (supplied artists_answered new)) (artists_of resp)
    /\ Forall2 playlist_projected
         (selected r (supplied playlists_answered new)) (playlists_of resp)
    /\ (uses_requested_artist r = true -> looked_up artist_answered new <> None)
    /\ (uses_requested_album r = true -> looked_up album_answered new <> None).
Proof.
  intros Hrun.
  destruct (ensure_authenticated_calls env codec w) as [new0 [Hlog0 _]].
  destruct r; unfold dispatch in Hrun;
    match type of Hrun with ?tool _ = _ => let h := head_of tool in unfold h in Hrun end.
  all: run_cases.
  all: run_done.
  all: loop_facts.
  all: match goal with
       | |- exists new, log ?w1 = _ /\ _ =>
           let l := eval cbn [log] in (log w1) in
           match type of Hlog0 with
           | ?stop = _ =>
               let p := prefix_of l stop in
               exists (p ++ new0)%list
           end
       end.
  all: split; [cbn [log]; rewrite Hlog0; reflexivity|].
  all: cbn [app supplied selected tracks_of albums_of artists_of playlists_of
            tracks_answered albums_answered artists_answered playlists_answered
            artist_fallback album_name_for looked_up artist_answered album_answered
            TrackList.tracks AlbumList.albums ArtistList.artists
            PlaylistList.playlists PlaylistTracks.tracks AlbumTracks.tracks
            RadioTracks.tracks AlbumDetails.album].
  all: repeat rewrite_known.
  all: rewrite ?slice_to_nil.
  all: repeat (split; [|]); try (constructor; fail);
         try (cbn; intros; discriminate).
  all: try (eapply Forall2_impl; [| eassumption]; built_one; projected_done).
  all: constructor; [| constructor]; projected_done.
Qed.

(** ** The stored session *)

(** C7. When the session file is there and the stored session fails (the
    file does not parse, a field is missing, the load raises, or the loaded
    credentials are refused by [check_login]), [ensure_authenticated]
    deletes the file and answers [False]; it does not raise. *)
Theorem failed_session_file_is_deleted {L} (env : Env L) (codec : Codec)
  (w : World L) (content : string) :
  session_file w = Some content ->
  stored_session_fails env codec (lib w) content ->
  exists w',
    ensure_authenticated env codec w = (Returned false, w')
    /\ session_file w' = None.
Proof.
  intros Hfile Hfails.
  destruct Hfails as
    [ e Hparse
    | data field e Hparse Hfield Hmissing
    | data tt at_ rt e l' Hparse Htt Hat Hrt Hload
    | data tt at_ rt l1 l2 Hparse Htt Hat Hrt Hload Hcheck
    | data tt at_ rt e l1 l2 Hparse Htt Hat Hrt Hload Hcheck ].
  - check_run. eexists; split; reflexivity.
  - destruct Hfield as [<- | [<- | [<- | []]]].
    + check_run. eexists; split; reflexivity.
    + destruct (wrapped data "token_type") eqn:Htt;
        check_run; eexists; split; reflexivity.
    + destruct (wrapped data "token_type") eqn:Htt;
        [|destruct (wrapped data "access_token") eqn:Hat];
        check_run; eexists; split; reflexivity.
  - check_run. eexists; split; reflexivity.
  - check_run. eexists; split; reflexivity.
  - check_run. eexists; split; reflexivity.
Qed.

Lemma failed_session_file_is_deleted_witness :
  exists w',
    ensure_authenticated Ref.env Ref.codec Ref.with_stale_file = (Returned false, w')
    /\ session_file w' = None.
Proof.
  apply (failed_session_file_is_deleted Ref.env Ref.codec Ref.with_stale_file
           (Ref.dump (session_data Ref.revoked_grant))).
  - reflexivity.
  - eapply (load_exception Ref.env Ref.codec _ _
              (session_data Ref.revoked_grant)
              (JStr "Bearer") (JStr "acc-0") (JStr "ref-0"));
      vm_compute; reflexivity.
Defined.

(** A file that is not JSON goes the same way. *)
Example garbled_session_file_is_deleted :
  ensure_authenticated Ref.env Ref.codec Ref.with_garbled_file
  = (Returned false, Ref.first_start).
Proof. vm_compute. reflexivity. Qed.

(** The one path that keeps the file: [load_oauth_session] answers [False]
    without raising. *)
Remark refused_load_keeps_the_file {L} (env : Env L) (codec : Codec)
  (w : World L) (content : string) (data token_type access_token refresh_token : json)
  (l' : L) :
  session_file w = Some content ->
  loads codec content = Returned data ->
  wrapped data "token_type" = Returned token_type ->
  wrapped data "access_token" = Returned access_token ->
  wrapped data "refresh_token" = Returned refresh_token ->
  perform env (load_oauth_session token_type access_token refresh_token JNull) (lib w)
  = (Returned false, l') ->
  exists w',
    ensure_authenticated env codec w = (Returned false, w')
    /\ session_file w' = Some content.
Proof.
  intros Hfile Hparse Htt Hat Hrt Hload.
  check_run. eexists; split; reflexivity.
Qed.

(** ** Argument checks *)



(** C5, as stated, fails: a call with both [track_ids] and [indices]
    populated, made without a valid session, ends in the "Not
    authenticated" error, which is not a Bad-Request error. *)
Lemma remove_tracks_unauthenticated_not_bad_request :
  populated (Some ["111"]) = true
  /\ populated (Some [0]) = true
  /\ fst (dispatch Ref.env Ref.codec
            (Remove_tracks_from_playlist "p1" (Some ["111"]) (Some [0]))
            Ref.first_start)
     = Raised (ToolError not_authenticated)
  /\ ~ (exists e,
          fst (dispatch Ref.env Ref.codec
                 (Remove_tracks_from_playlist "p1" (Some ["111"]) (Some [0]))
                 Ref.first_start) = Raised e
          /\ bad_request e).
Proof.
  repeat split.
  intros [e [Hrun [Hbad | Hbad]]]; subst e; vm_compute in Hrun; discriminate Hrun.
Qed.

(** C5, amended. When both [track_ids] and [indices] are populated, or
    neither is, [remove_tracks_from_playlist] fails and leaves the world as
    the session check left it (no playlist fetch, no removal); when the
    check passed, the error is the Bad-Request error naming the violated
    constraint, and when the check answered [False] it is the "Not
    authenticated" error. *)
Theorem remove_tracks_rejects_both_or_neither {L} (env : Env L) (codec : Codec)
  (playlist_id : string) (track_ids : option (list string))
  (indices : option (list Z)) (w : World L) :
  populated track_ids = populated indices ->
  let run :=
    dispatch env codec (Remove_tracks_from_playlist playlist_id track_ids indices) w in
  snd run = snd (ensure_authenticated env codec w)
  /\ (exists e, fst run = Raised e)
  /\ (fst (ensure_authenticated env codec w) = Returned true ->
      fst run
      = Raised (ToolError
                  (if populated track_ids
                   then "Provide either track_ids or indices, not both"
                   else "Must provide either track_ids or indices to remove")))
  /\ (fst (ensure_authenticated env codec w) = Returned false ->
      fst run = Raised (ToolError not_authenticated)).
Proof.
  intros Hsame run. subst run.
  unfold dispatch, remove_tracks_from_playlist, bind.
  destruct (ensure_authenticated env codec w) as [[e | authenticated] w1].
  - cbn. split; [reflexivity|]. split; [eexists; reflexivity|].
    split; discriminate.
  - destruct authenticated; cbn [negb fst snd].
    + rewrite <- Hsame. unfold raise.
      destruct (populated track_ids); cbn;
        (split; [reflexivity|]; split; [eexists; reflexivity|];
         split; [reflexivity|discriminate]).
    + unfold raise. cbn.
      split; [reflexivity|]. split; [eexists; reflexivity|].
      split; [discriminate|reflexivity].
Qed.

Lemma remove_tracks_rejects_both_or_neither_witness :
  fst (dispatch Ref.env Ref.codec
         (Remove_tracks_from_playlist "p1" (Some ["111"]) (Some [0]))
         Ref.with_session_file)
  = Raised (ToolError "Provide either track_ids or indices, not both")
  /\ fst (dispatch Ref.env Ref.codec
            (Remove_tracks_from_playlist "p1" (Some []) None)
            Ref.with_session_file)
     = Raised (ToolError "Must provide either track_ids or indices to remove").
Proof.
  split.
  - apply (remove_tracks_rejects_both_or_neither Ref.env Ref.codec "p1"
             (Some ["111"]) (Some [0]) Ref.with_session_file);
      vm_compute; reflexivity.
  - apply (remove_tracks_rejects_both_or_neither Ref.env Ref.codec "p1"
             (Some []) None Ref.with_session_file);
      vm_compute; reflexivity.
Defined.

(** ** Saving and loading the session *)

(** What [login] writes after a completed OAuth flow: the five values of
    the session object, as [session_data] lays them out. *)
Lemma login_writes_session_data {L} (env : Env L) (codec : Codec)
  (w w' : World L) :
  login env codec w
  = (Returned (RAuthResult
                 (AuthResult.mk "success" "Successfully authenticated with TIDAL" true)),
     w') ->
  session_file w'
  = Some (dumps codec (session_data (credentials env (lib w')))).
Proof.
  intros Hrun. unfold login, session_attributes, file_write in Hrun.
  run_cases; run_done; reflexivity.
Qed.

(** The three fields the load reads from a saved session. *)
Lemma wrapped_session_data (c : Credentials.t) :
  wrapped (session_data c) "token_type"
  = Returned (py_or (Credentials.token_type c) (JStr "Bearer"))
  /\ wrapped (session_data c) "access_token" = Returned (Credentials.access_token c)
  /\ wrapped (session_data c) "refresh_token" = Returned (Credentials.refresh_token c).
Proof. repeat split. Qed.

(** On a saved session that parses back, the check loads exactly the
    three tokens. *)
Lemma ensure_authenticated_on_saved {L} (env : Env L) (codec : Codec)
  (c : Credentials.t) (w : World L) :
  session_file w = Some (dumps codec (session_data c)) ->
  loads codec (dumps codec (session_data c)) = Returned (session_data c) ->
  ensure_authenticated env codec w
  = load_then_check env
      (py_or (Credentials.token_type c) (JStr "Bearer"))
      (Credentials.access_token c) (Credentials.refresh_token c) w.
Proof.
  intros Hfile Hround.
  unfold ensure_authenticated, load_then_check, bind, try_except, file_exists,
    file_read, lift.
  repeat (cbv beta iota zeta; rewrite_known).
  reflexivity.
Qed.

(** After the load, only the library state and the log matter to the
    outcome; the text of the file does not. *)
Lemma load_then_check_ignores_file_text {L} (env : Env L)
  (token_type access_token refresh_token : json) (text text' : string)
  (l : L) (history : list Interaction) :
  let run := load_then_check env token_type access_token refresh_token
               (mkWorld (Some text) l history) in
  let run' := load_then_check env token_type access_token refresh_token
                (mkWorld (Some text') l history) in
  fst run' = fst run /\ lib (snd run') = lib (snd run) /\ log (snd run') = log (snd run).
Proof.
  unfold load_then_check, try_except, bind, call, file_unlink, ret.
  cbn [session_file lib log].
  destruct (perform env _ l) as [[e | []] l1]; cbn; auto.
  destruct (perform env check_login l1) as [[e | []] l2]; cbn; auto.
Qed.

(** C3, as stated, fails.  A session that [login] saved with the PKCE
    flag set comes back, in a new process, with the flag unset: the file
    holds the flag, but the load passes only the token type, the access
    token and the refresh token to [load_oauth_session].  Whatever the
    library does, two saved sessions that differ in the flag alone are
    loaded with the same outcome and the same library state. *)
Lemma pkce_flag_lost_on_reload :
  (let w1 := snd (login Ref.env Ref.codec Ref.first_start_pkce) in
   let saved := credentials Ref.env (lib w1) in
   let w2 := mkWorld (session_file w1) (Ref.restart (lib w1)) [] in
   let w3 := snd (ensure_authenticated Ref.env Ref.codec w2) in
   session_file w1 = Some (dumps Ref.codec (session_data saved))
   /\ fst (ensure_authenticated Ref.env Ref.codec w2) = Returned true
   /\ Credentials.is_pkce saved = JBool true
   /\ Credentials.is_pkce (credentials Ref.env (lib w3)) = JBool false)
  /\ Credentials.is_pkce Ref.pkce_grant <> Credentials.is_pkce Ref.device_grant
  /\ forall L (env : Env L) (l : L) (history : list Interaction),
       let load c :=
         ensure_authenticated env Ref.codec
           (mkWorld (Some (dumps Ref.codec (session_data c))) l history) in
       fst (load Ref.pkce_grant) = fst (load Ref.device_grant)
       /\ lib (snd (load Ref.pkce_grant)) = lib (snd (load Ref.device_grant)).
Proof.
  split; [|split].
  - cbv zeta. repeat split; vm_compute; reflexivity.
  - cbn. discriminate.
  - intros L env l history load. subst load. cbv beta.
    rewrite (ensure_authenticated_on_saved env Ref.codec Ref.pkce_grant
               (mkWorld (Some (dumps Ref.codec (session_data Ref.pkce_grant))) l history)
               eq_refl)
      by (vm_compute; reflexivity).
    rewrite (ensure_authenticated_on_saved env Ref.codec Ref.device_grant
               (mkWorld (Some (dumps Ref.codec (session_data Ref.device_grant))) l history)
               eq_refl)
      by (vm_compute; reflexivity).
    destruct (load_then_check_ignores_file_text env
                (JStr "Bearer") (JStr "acc-1") (JStr "ref-1")
                (dumps Ref.codec (session_data Ref.device_grant))
                (dumps Ref.codec (session_data Ref.pkce_grant)) l history)
      as [Hout [Hlib _]].
    split; assumption.
Qed.

(** C3, amended. Loading a saved session hands the session object the
    saved token type (or "Bearer" when it was empty), access token and
    refresh token, each exactly as saved, and no expiry time: that is the
    first call [ensure_authenticated] makes.  The saved session id and PKCE
    flag are not read back: two saved sessions that agree on the three
    tokens are loaded with the same outcome, library state and calls. *)
Theorem saved_tokens_are_loaded_unchanged {L} (env : Env L) (codec : Codec)
  (c : Credentials.t) (w : World L) :
  session_file w = Some (dumps codec (session_data c)) ->
  loads codec (dumps codec (session_data c)) = Returned (session_data c) ->
  (exists later,
     log (snd (ensure_authenticated env codec w))
     = (later ++ interaction (load_of c) (fst (perform env (load_of c) (lib w)))
          :: log w)%list)
  /\ forall c' : Credentials.t,
       loads codec (dumps codec (session_data c')) = Returned (session_data c') ->
       py_or (Credentials.token_type c') (JStr "Bearer")
       = py_or (Credentials.token_type c) (JStr "Bearer") ->
       Credentials.access_token c' = Credentials.access_token c ->
       Credentials.refresh_token c' = Credentials.refresh_token c ->
       let w' := mkWorld (Some (dumps codec (session_data c'))) (lib w) (log w) in
       fst (ensure_authenticated env codec w') = fst (ensure_authenticated env codec w)
       /\ lib (snd (ensure_authenticated env codec w'))
          = lib (snd (ensure_authenticated env codec w))
       /\ log (snd (ensure_authenticated env codec w'))
          = log (snd (ensure_authenticated env codec w)).
Proof.
  intros Hfile Hround. split.
  - rewrite (ensure_authenticated_on_saved env codec c w Hfile Hround).
    unfold load_then_check, load_of, try_except, bind, call, file_unlink, ret.
    destruct (perform env _ (lib w)) as [[e | []] l1]; cbn [fst snd session_file lib log].
    + destruct (session_file w); exists []; reflexivity.
    + destruct (perform env check_login l1) as [[e | []] l2];
        cbn [fst snd session_file lib log negb];
        try destruct (session_file w);
        eexists [_]; reflexivity.
    + exists []; reflexivity.
  - intros c' Hround' Htt Hat Hrt w'.
    rewrite (ensure_authenticated_on_saved env codec c w Hfile Hround).
    rewrite (ensure_authenticated_on_saved env codec c' w' eq_refl Hround').
    rewrite Htt, Hat, Hrt.
    destruct w as [file l history]. cbn [session_file] in Hfile. subst file w'.
    apply load_then_check_ignores_file_text.
Qed.

Lemma saved_tokens_are_loaded_unchanged_witness :
  exists later,
    log (snd (ensure_authenticated Ref.env Ref.codec Ref.with_session_file))
    = (later
       ++ [interaction
             (load_oauth_session (JStr "Bearer") (JStr "acc-1") (JStr "ref-1") JNull)
             (Returned true)])%list.
Proof.
  apply (saved_tokens_are_loaded_unchanged Ref.env Ref.codec Ref.device_grant
           Ref.with_session_file);
    vm_compute; reflexivity.
Defined.

(** ** Defaults for missing fields *)

(** C8, as stated, fails: [get_artist_top_tracks] gives a track that has no
    artist the name of the requested artist, not the placeholder. *)
Lemma top_track_without_artist_takes_requested_artist :
  let run :=
    dispatch Ref.env Ref.codec (Get_artist_top_tracks "8992" 10)
      Ref.with_session_file in
  exists resp,
    fst run = Returned resp
    /\ supplied tracks_answered (log (snd run)) = [Ref.untitled; Ref.rhapsody]
    /\ RemoteTrack.artist Ref.untitled = None
    /\ map Track.artist (tracks_of resp) = ["Queen"; "Queen"]
    /\ ~ In "Unknown Artist" (map Track.artist (tracks_of resp)).
Proof.
  cbv zeta. eexists. split; [vm_compute; reflexivity|].
  repeat split; try (vm_compute; reflexivity).
  vm_compute. intros [H | [H | []]]; discriminate H.
Qed.

(** C8, amended. In every successful run, each returned track and album is
    built from the remote object at its place in the list the tool
    projects.  A track or album without an artist gets the placeholder
    "Unknown Artist", except in [get_artist_albums] and
    [get_artist_top_tracks], which give it the name of the requested
    artist; a track without an album gets "Unknown Album", except in
    [get_album_tracks], which gives every track the name of the requested
    album.  An album whose track count or duration attribute is missing
    gets zero, as does a playlist whose track count is missing; a returned
    track always had its duration. *)
Theorem missing_fields_take_defaults {L} (env : Env L) (codec : Codec)
  (r : Request) (w w' : World L) (resp : Response) :
  dispatch env codec r w = (Returned resp, w') ->
  exists new,
    log w' = (new ++ log w)%list
    /\ Forall2
         (fun x y =>
            (RemoteTrack.artist x = None -> Track.artist y = artist_fallback r new)
            /\ (RemoteTrack.album x = None -> Track.album y = album_name_for r new None)
            /\ (uses_requested_album r = true ->
                Track.album y = album_name_for r new None)
            /\ RemoteTrack.duration x = Val (Track.duration_seconds y))
         (selected r (supplied tracks_answered new)) (tracks_of resp)
    /\ Forall2
         (fun x y =>
            (RemoteAlbum.artist x = None -> Album.artist y = artist_fallback r new)
            /\ (RemoteAlbum.num_tracks x = Absent -> Album.num_tracks y = 0)
            /\ (RemoteAlbum.duration x = Absent -> Album.duration_seconds y = 0))
         (selected r (supplied albums_answered new)) (albums_of resp)
    /\ Forall2
         (fun x y => RemotePlaylist.num_tracks x = Absent -> Playlist.track_count y = 0)
         (selected r (supplied playlists_answered new)) (playlists_of resp)
    /\ (if uses_requested_artist r
        then exists a, looked_up artist_answered new = Some a
                       /\ artist_fallback r new = RemoteArtist.name a
        else artist_fallback r new = "Unknown Artist")
    /\ (if uses_requested_album r
        then exists a, looked_up album_answered new = Some a
                       /\ album_name_for r new None = RemoteAlbum.name a
        else album_name_for r new None = "Unknown Album").
Proof.
  intros Hrun.
  destruct (run_projects env codec r w w' resp Hrun)
    as [new [Hlog [Htracks [Halbums [_ [Hplaylists [Hartist Halbum]]]]]]].
  exists new. split; [exact Hlog|].
  split; [|split; [|split; [|split]]].
  - eapply Forall2_impl; [|exact Htracks].
    intros x y [Hy Hduration]. rewrite Hy. cbn.
    repeat split; try assumption.
    + intros Hnone. rewrite Hnone. reflexivity.
    + intros Hnone. rewrite Hnone. reflexivity.
    + intros Huses. destruct r; try discriminate Huses. reflexivity.
  - eapply Forall2_impl; [|exact Halbums].
    intros x y [Hy [Hcount Hduration]]. rewrite Hy. cbn.
    repeat split; intros Habsent; rewrite Habsent in *; cbn in *; congruence.
  - eapply Forall2_impl; [|exact Hplaylists].
    intros x y [_ [_ [_ [Hcount _]]]] Habsent.
    rewrite Habsent in Hcount. cbn in Hcount. congruence.
  - destruct (uses_requested_artist r) eqn:Huses.
    + specialize (Hartist eq_refl).
      destruct (looked_up artist_answered new) as [a |] eqn:Hfound; [|congruence].
      exists a. split; [reflexivity|].
      destruct r; try discriminate Huses; cbn; rewrite Hfound; reflexivity.
    + destruct r; try discriminate Huses; reflexivity.
  - destruct (uses_requested_album r) eqn:Huses.
    + specialize (Halbum eq_refl).
      destruct (looked_up album_answered new) as [a |] eqn:Hfound; [|congruence].
      exists a. split; [reflexivity|].
      destruct r; try discriminate Huses; cbn; rewrite Hfound; reflexivity.
    + destruct r; try discriminate Huses; reflexivity.
Qed.

Lemma missing_fields_take_defaults_witness :
  exists resp w',
    dispatch Ref.env Ref.codec (Search_albums "boot" 5) Ref.with_session_file
    = (Returned resp, w')
    /\ exists new,
         Forall2
           (fun x y =>
              (RemoteAlbum.artist x = None ->
               Album.artist y = artist_fallback (Search_albums "boot" 5) new)
              /\ (RemoteAlbum.num_tracks x = Absent -> Album.num_tracks y = 0)
              /\ (RemoteAlbum.duration x = Absent -> Album.duration_seconds y = 0))
           (selected (Search_albums "boot" 5) (supplied albums_answered new))
           (albums_of resp).
Proof.
  eexists. eexists. split.
  - vm_compute. reflexivity.
  - destruct (missing_fields_take_defaults Ref.env Ref.codec
                (Search_albums "boot" 5) Ref.with_session_file _ _
                ltac:(vm_compute; reflexivity))
      as [new [_ [_ [Halbums _]]]].
    exists new. exact Halbums.
Defined.

(** ** Limits that truncate after the fetch *)



(** With a positive limit the first entities are returned. *)
Example two_of_three_playlist_tracks :
  exists resp w',
    dispatch Ref.env Ref.codec (Get_playlist_tracks "p1" 2) Ref.with_session_file
    = (Returned resp, w')
    /\ map Track.id (tracks_of resp) = ["111"; "222"].
Proof.
  eexists. eexists. split; vm_compute; reflexivity.
Qed.

(** ** Clamped limits *)

Lemma session_call_has_no_limit (c : Call) :
  session_call c = true -> limit_arg c = None.
Proof. destruct c; cbn; intros H; try discriminate H; reflexivity. Qed.




(** The limits that reach the remote client for limit 0 and limit 1000. *)
Example clamped_limits_reach_the_client :
  map made
    (log (snd (dispatch Ref.env Ref.codec (Search_tracks "queen" 0)
                 Ref.with_session_file)))
  = [ session_search MTrack "queen" 1; check_login;
      load_oauth_session (JStr "Bearer") (JStr "acc-1") (JStr "ref-1") JNull ]
  /\ map made
       (log (snd (dispatch Ref.env Ref.codec (Get_track_radio "111" 1000)
                    Ref.with_session_file)))
     = [ track_get_track_radio "111" 100; session_track "111"; check_login;
         load_oauth_session (JStr "Bearer") (JStr "acc-1") (JStr "ref-1") JNull ].
Proof. split; vm_compute; reflexivity. Qed.

(** * More of the server: errors, edge cases and the login flow *)

(** ** Tables read off the tools *)

(** The first call a tool makes to the remote client once the session check
    has passed: [None] when the tool stops before calling (an argument
    check fails, or an id does not parse). *)
Definition first_call (r : Request) : option Call :=
  match r with
  | Search_tracks q l => Some (session_search MTrack q (Z.min (Z.max 1 l) 50))
  | Search_albums q l => Some (session_search MAlbum q (Z.min (Z.max 1 l) 50))
  | Search_artists q l => Some (session_search MArtist q (Z.min (Z.max 1 l) 50))
  | Search_playlists q l => Some (session_search MPlaylist q (Z.min (Z.max 1 l) 50))
  | Get_favorite_tracks l => Some (favorites_tracks l)
  | Add_track_to_favorites t => option_map favorites_add_track (parse_int t)
  | Get_user_playlists _ => Some user_playlists
  | Get_playlist_tracks p _ => Some (session_playlist p)
  | Create_playlist n d => Some (user_create_playlist n d)
  | Add_tracks_to_playlist p _ => Some (session_playlist p)
  | Remove_tracks_from_playlist p track_ids indices =>
      if xorb (populated track_ids) (populated indices)
      then Some (session_playlist p) else None
  | Update_playlist p name description =>
      if (nonempty name || match description with Some _ => true | None => false end)%bool
      then Some (session_playlist p) else None
  | Delete_playlist p => Some (session_playlist p)
  | Get_album_tracks a => Some (session_album a)
  | Get_track_radio t _ => Some (session_track t)
  | Get_artist_radio a _ => Some (session_artist a)
  | Get_artist a => Some (session_artist a)
  | Get_artist_albums a _ => Some (session_artist a)
  | Get_artist_top_tracks a _ => Some (session_artist a)
  | Get_similar_artists a _ => Some (session_artist a)
  | Get_favorite_albums l => Some (favorites_albums l)
  | Get_favorite_artists l => Some (favorites_artists l)
  | Remove_track_from_favorites t => option_map favorites_remove_track (parse_int t)
  | Remove_album_from_favorites a => option_map favorites_remove_album (parse_int a)
  | Get_album a => Some (session_album a)
  | Get_similar_albums a _ => Some (session_album a)
  end.


(** A lookup by id that came back empty. *)
Definition found_nothing (i : Interaction) : bool :=
  match i with
  | interaction c out =>
      match c as c0 return Outcome (answer c0) -> bool with
      | session_playlist _ => fun out => match out with Returned None => true | _ => false end
      | session_album _ => fun out => match out with Returned None => true | _ => false end
      | session_track _ => fun out => match out with Returned None => true | _ => false end
      | session_artist _ => fun out => match out with Returned None => true | _ => false end
      | _ => fun _ => false
      end out
  end.

(** The kind of entity a lookup addresses, as the error message names it,
    and the id looked up. *)
Definition looked_for (c : Call) : option (string * string) :=
  match c with
  | session_playlist id => Some ("Playlist", id)
  | session_album id => Some ("Album", id)
  | session_track id => Some ("Track", id)
  | session_artist id => Some ("Artist", id)
  | _ => None
  end.


(** Run a tool as far as the equations at hand decide. *)
Ltac tool_run :=
  repeat (cbv beta iota zeta delta [bind try_except call lift ret raise failed
                                    failed_unless_tool_error py_int];
          cbn [negb session_file lib log];
          rewrite_known);
  cbv beta iota zeta delta [bind try_except call lift ret raise failed
                            failed_unless_tool_error py_int];
  cbn [negb session_file lib log].

(** Split on the outcome of the argument checks, keeping the cases the
    hypotheses allow. *)
Ltac accept_arguments :=
  repeat match goal with
         | H : xorb (populated ?a) (populated ?b) = _ |- _ =>
             destruct (populated a), (populated b); try discriminate H; clear H
         | H : (nonempty ?n || _)%bool = _ |- _ =>
             destruct (nonempty n) eqn:?; cbn [orb] in H
         | H : match ?d with Some _ => true | None => false end = _ |- _ =>
             destruct d; try discriminate H; clear H
         end;
  cbn [negb andb orb].

(** ** A service that is down

    The session check is answered as in the reference environment; every
    other call fails to connect. *)

Module Outage.

Definition unreachable : exn :=
  PyError "ConnectionError" "Max retries exceeded".

Definition perform (c : Call) (s : Ref.State) : Outcome (answer c) * Ref.State :=
  if session_call c then Ref.perform c s else (Raised unreachable, Ref.asked s).

Definition env : Env Ref.State := mkEnv Ref.State perform Ref.session Ref.requests.

End Outage.

(** ** Failures of the remote client *)



(** X2. When the session check has passed and the lookup by id a tool starts
    with comes back empty, the tool raises the [ToolError] "<Kind> with ID
    '<id>' not found" for the id it was given, and makes no further
    call. *)
Theorem missing_entity_is_reported_not_found {L} (env : Env L) (codec : Codec)
  (r : Request) (c : Call) (kind id : string) (w w1 : World L)
  (out : Outcome (answer c)) (l' : L) :
  ensure_authenticated env codec w = (Returned true, w1) ->
  first_call r = Some c ->
  looked_for c = Some (kind, id) ->
  perform env c (lib w1) = (out, l') ->
  found_nothing (interaction c out) = true ->
  dispatch env codec r w
  = (Raised (ToolError (kind ++ " with ID '" ++ id ++ "' not found")),
     mkWorld (session_file w1) l' (interaction c out :: log w1)).
Proof.
  intros Hcheck Hfirst Hkind Hlookup Hnothing.
  destruct r; cbn [first_call] in Hfirst;
    repeat match type of Hfirst with
           | context [if ?b then _ else _] => destruct b eqn:?
           | context [parse_int ?t] => destruct (parse_int t) eqn:?
           end;
    cbn in Hfirst; try discriminate Hfirst;
    inversion Hfirst; subst c; clear Hfirst;
    cbn in Hkind; try discriminate Hkind;
    inversion Hkind; subst kind id; clear Hkind;
    cbn in Hnothing; destruct out as [e | [found |]]; try discriminate Hnothing;
    unfold dispatch;
    match goal with |- ?tool _ = _ => let h := head_of tool in unfold h end;
    accept_arguments; tool_run; reflexivity.
Qed.

Lemma missing_entity_is_reported_not_found_witness :
  fst (dispatch Ref.env Ref.codec (Delete_playlist "p9") Ref.with_session_file)
  = Raised (ToolError "Playlist with ID 'p9' not found")
  /\ map made
       (log (snd (dispatch Ref.env Ref.codec (Delete_playlist "p9")
                    Ref.with_session_file)))
     = [ session_playlist "p9"; check_login;
         load_oauth_session (JStr "Bearer") (JStr "acc-1") (JStr "ref-1") JNull ].
Proof.
  rewrite (missing_entity_is_reported_not_found Ref.env Ref.codec
             (Delete_playlist "p9") (session_playlist "p9") "Playlist" "p9"
             Ref.with_session_file
             (snd (ensure_authenticated Ref.env Ref.codec Ref.with_session_file))
             (Returned None)
             (Ref.asked (lib (snd (ensure_authenticated Ref.env Ref.codec
                                     Ref.with_session_file)))));
    try reflexivity.
  split; reflexivity.
Defined.

(** ** What a tool can raise, and what it does to the session file *)

(** Every path of every tool: the session file is left as the session check
    left it, and an exception is a [ToolError] unless the check itself
    raised it. *)
Lemma run_outcomes {L} (env : Env L) (codec : Codec) (r : Request) (w : World L) :
  session_file (snd (dispatch env codec r w))
  = session_file (snd (ensure_authenticated env codec w))
  /\ forall e,
       fst (dispatch env codec r w) = Raised e ->
       (exists m, e = ToolError m)
       \/ fst (ensure_authenticated env codec w) = Raised e.
Proof.
  destruct (dispatch env codec r w) as [out w'] eqn:Hrun.
  destruct r; unfold dispatch in Hrun;
    match type of Hrun with ?tool _ = _ => let h := head_of tool in unfold h in Hrun end.
  all: run_cases.
  all: run_done.
  all: loop_facts.
  all: cbn [fst snd session_file].
  all: split; [reflexivity|].
  all: intros e0 He0; try discriminate He0; inversion He0; subst;
    first [ right; reflexivity | left; eexists; reflexivity ].
Qed.

(** Every path of the session check: it answers [True] only right after
    [check_login] answered [True], and then keeps the file; otherwise the
    file is kept or deleted, never rewritten; and with a file in place the
    check does not raise. *)
Lemma check_outcomes {L} (env : Env L) (codec : Codec) (w : World L) :
  let run := ensure_authenticated env codec w in
  (fst run = Returned true ->
   session_file (snd run) = session_file w
   /\ exists rest, log (snd run) = interaction check_login (Returned true) :: rest)
  /\ (session_file (snd run) = session_file w \/ session_file (snd run) = None)
  /\ (session_file w <> None -> exists b, fst run = Returned b).
Proof.
  cbv zeta.
  destruct (ensure_authenticated env codec w) as [out w'] eqn:Hrun.
  unfold ensure_authenticated, file_exists, file_read, file_unlink in Hrun.
  run_cases; run_done; cbn [fst snd session_file log lib] in *;
    (split; [|split]); intros;
    repeat match goal with
           | H : Returned _ = Returned _ |- _ => inversion H; clear H; subst
           end;
    cbn [negb] in *; subst;
    first [ congruence
          | split; [congruence | eexists; reflexivity]
          | eexists; reflexivity
          | left; congruence
          | right; congruence ].
Qed.

(** X3. A tool raises nothing but [ToolError], unless the session check
    itself raised: then the tool raises what the check raised and leaves
    the world as the check left it. *)
Theorem tools_raise_only_tool_errors {L} (env : Env L) (codec : Codec)
  (r : Request) (w w' : World L) (e : exn) :
  dispatch env codec r w = (Raised e, w') ->
  (exists m, e = ToolError m)
  \/ ensure_authenticated env codec w = (Raised e, w').
Proof.
  intros Hrun.
  destruct (run_outcomes env codec r w) as [_ Herrors].
  destruct (Herrors e) as [Htool | Hcheck].
  - rewrite Hrun. reflexivity.
  - left. exact Htool.
  - right.
    destruct (ensure_authenticated env codec w) as [out w0] eqn:Hensure.
    cbn [fst] in Hcheck. subst out.
    rewrite (tool_raises_when_check_raises env codec r w w0 e Hensure) in Hrun.
    inversion Hrun. reflexivity.
Qed.

Lemma tools_raise_only_tool_errors_witness :
  exists m,
    fst (dispatch Outage.env Ref.codec (Get_album "77") Ref.with_session_file)
    = Raised (ToolError m).
Proof.
  destruct (tools_raise_only_tool_errors Outage.env Ref.codec (Get_album "77")
              Ref.with_session_file
              (snd (dispatch Outage.env Ref.codec (Get_album "77")
                      Ref.with_session_file))
              (ToolError "Failed to get album: Max retries exceeded") eq_refl)
    as [[m Hm] | Hcheck].
  - exists m. rewrite <- Hm. reflexivity.
  - vm_compute in Hcheck. discriminate Hcheck.
Defined.

(** X4. With a session file in place the session check never raises: it
    answers [True] or [False]; hence every tool then returns or raises a
    [ToolError]. *)
Theorem nothing_raw_escapes_with_a_session_file {L} (env : Env L) (codec : Codec)
  (w : World L) (content : string) :
  session_file w = Some content ->
  (exists b w', ensure_authenticated env codec w = (Returned b, w'))
  /\ forall (r : Request) (e : exn),
       fst (dispatch env codec r w) = Raised e -> exists m, e = ToolError m.
Proof.
  intros Hfile.
  destruct (check_outcomes env codec w) as [_ [_ Hreturns]].
  destruct Hreturns as [b Hb]; [congruence|].
  split.
  - exists b, (snd (ensure_authenticated env codec w)).
    destruct (ensure_authenticated env codec w) as [out w0]. cbn in Hb. now subst out.
  - intros r e Hrun.
    destruct (run_outcomes env codec r w) as [_ Herrors].
    destruct (Herrors e Hrun) as [Htool | Hcheck]; [exact Htool|].
    rewrite Hb in Hcheck. discriminate Hcheck.
Qed.

Lemma nothing_raw_escapes_with_a_session_file_witness :
  exists b w',
    ensure_authenticated Ref.env Ref.codec Ref.with_garbled_file = (Returned b, w').
Proof.
  apply (nothing_raw_escapes_with_a_session_file Ref.env Ref.codec
           Ref.with_garbled_file "{token_type: Bearer").
  reflexivity.
Defined.

(** Without a session file a [check_login] that raises is not caught: the
    check, and the tool, raise it as it is. *)
Example raw_exception_without_session_file :
  let down := mkEnv Ref.State
                (fun c s => (Raised Outage.unreachable, s)) Ref.session Ref.requests in
  fst (dispatch down Ref.codec (Get_album "77") Ref.first_start)
  = Raised Outage.unreachable.
Proof. vm_compute. reflexivity. Qed.

(** X5. No tool writes the session file: after a call the file is as it was
    or it is gone, and after a call that returned it is as it was. *)
Theorem tools_never_write_session_file {L} (env : Env L) (codec : Codec)
  (r : Request) (w : World L) :
  (session_file (snd (dispatch env codec r w)) = session_file w
   \/ session_file (snd (dispatch env codec r w)) = None)
  /\ forall resp,
       fst (dispatch env codec r w) = Returned resp ->
       session_file (snd (dispatch env codec r w)) = session_file w.
Proof.
  destruct (run_outcomes env codec r w) as [Hfile _].
  destruct (check_outcomes env codec w) as [Hconfirmed [Hkept _]].
  rewrite Hfile. split; [exact Hkept|].
  intros resp Hresp.
  destruct (ensure_authenticated env codec w) as [[e | []] w0] eqn:Hcheck.
  - rewrite (tool_raises_when_check_raises env codec r w w0 e Hcheck) in Hresp.
    discriminate Hresp.
  - exact (proj1 (Hconfirmed eq_refl)).
  - destruct (dispatch_guarded env codec r) as [body Hbody].
    rewrite Hbody, (guarded_refused env codec body w w0 Hcheck) in Hresp.
    discriminate Hresp.
Qed.

(** X6. The session check answers [True] only when [check_login] has just
    answered [True]: that exchange is the newest in the log, and the
    session file is left in place. *)
Theorem check_passes_only_when_service_confirms {L} (env : Env L)
  (codec : Codec) (w w' : World L) :
  ensure_authenticated env codec w = (Returned true, w') ->
  session_file w' = session_file w
  /\ exists rest, log w' = interaction check_login (Returned true) :: rest.
Proof.
  intros Hrun.
  destruct (check_outcomes env codec w) as [Hconfirmed _].
  rewrite Hrun in Hconfirmed. exact (Hconfirmed eq_refl).
Qed.

Lemma check_passes_only_when_service_confirms_witness :
  session_file (snd (ensure_authenticated Ref.env Ref.codec Ref.with_session_file))
  = session_file Ref.with_session_file.
Proof.
  apply (check_passes_only_when_service_confirms Ref.env Ref.codec
           Ref.with_session_file).
  vm_compute. reflexivity.
Defined.

(** ** Ids that do not parse *)











(** ** Removing tracks and editing a playlist *)



(** X12. [remove_tracks_from_playlist] by position: with indices given and no
    track ids, the playlist found, [playlist.remove_by_indices] is called
    once with exactly the indices given, and the result reports as removed
    the number of indices given. *)
Theorem tracks_are_removed_by_position {L} (env : Env L) (codec : Codec)
  (playlist_id : string) (track_ids : option (list string)) (indices : list Z)
  (w w1 : World L) (playlist : RemotePlaylist.t) (l1 l2 : L) :
  ensure_authenticated env codec w = (Returned true, w1) ->
  populated track_ids = false ->
  indices <> [] ->
  perform env (session_playlist playlist_id) (lib w1) = (Returned (Some playlist), l1) ->
  perform env (playlist_remove_by_indices (RemotePlaylist.id playlist) indices) l1
  = (Returned tt, l2) ->
  exists result,
    dispatch env codec
      (Remove_tracks_from_playlist playlist_id track_ids (Some indices)) w
    = (Returned (RRemoveTracksResult result),
       mkWorld (session_file w1) l2
         (interaction
            (playlist_remove_by_indices (RemotePlaylist.id playlist) indices)
            (Returned tt)
            :: interaction (session_playlist playlist_id) (Returned (Some playlist))
            :: log w1))
    /\ RemoveTracksResult.tracks_removed result = len indices.
Proof.
  intros Hcheck Hids Hindices Hfound Hremoved.
  assert (Hpopulated : populated (Some indices) = true)
    by (destruct indices; [contradiction | reflexivity]).
  eexists. split.
  - unfold dispatch, remove_tracks_from_playlist.
    unfold bind at 1. rewrite Hcheck. cbn [negb].
    rewrite Hids, Hpopulated. cbn [negb andb].
    tool_run. reflexivity.
  - reflexivity.
Qed.

Lemma tracks_are_removed_by_position_witness :
  map made
    (log (snd (dispatch Ref.env Ref.codec
                 (Remove_tracks_from_playlist "p1" (Some []) (Some [0; 2]))
                 Ref.with_session_file)))
  = [ playlist_remove_by_indices "p1" [0; 2]; session_playlist "p1"; check_login;
      load_oauth_session (JStr "Bearer") (JStr "acc-1") (JStr "ref-1") JNull ].
Proof.
  destruct (tracks_are_removed_by_position Ref.env Ref.codec "p1" (Some []) [0; 2]
              Ref.with_session_file
              (snd (ensure_authenticated Ref.env Ref.codec Ref.with_session_file))
              Ref.road_trip
              (Ref.asked (lib (snd (ensure_authenticated Ref.env Ref.codec
                                      Ref.with_session_file))))
              (Ref.asked (Ref.asked (lib (snd (ensure_authenticated Ref.env Ref.codec
                                                 Ref.with_session_file)))))
              eq_refl eq_refl ltac:(discriminate) eq_refl eq_refl)
    as [result [Hrun _]].
  rewrite Hrun. reflexivity.
Defined.

(** X13. [update_playlist] with a name or a description given and the
    playlist found: the one edit sent to the remote client carries the
    name given, or the playlist's current name when no name (or an empty
    one) is given, and the description as given, absent when none is
    given; an empty description counts as given. *)
Theorem playlist_edit_keeps_the_name_when_none_is_given {L} (env : Env L)
  (codec : Codec) (playlist_id : string) (name description : option string)
  (w w1 : World L) (playlist : RemotePlaylist.t) (l1 : L) :
  ensure_authenticated env codec w = (Returned true, w1) ->
  (nonempty name || match description with Some _ => true | None => false end)%bool
  = true ->
  perform env (session_playlist playlist_id) (lib w1) = (Returned (Some playlist), l1) ->
  let edit :=
    playlist_edit (RemotePlaylist.id playlist)
      (if nonempty name
       then match name with Some n => n | None => "" end
       else RemotePlaylist.name playlist)
      description in
  exists later,
    log (snd (dispatch env codec (Update_playlist playlist_id name description) w))
    = (later
       ++ interaction edit (fst (perform env edit l1))
       :: interaction (session_playlist playlist_id) (Returned (Some playlist))
       :: log w1)%list.
Proof.
  intros Hcheck Hgiven Hfound edit. subst edit.
  unfold dispatch, update_playlist.
  unfold bind at 1. rewrite Hcheck. cbn [negb].
  destruct (nonempty name) eqn:Hname; cbn [orb negb andb] in *.
  - unfold try_except. unfold bind at 1. unfold call at 1. rewrite Hfound.
    cbn [session_file lib log]. unfold bind at 1. unfold call at 1.
    cbn [session_file lib log].
    destruct (perform env _ l1) as [[e | []] l2]; cbn [fst].
    + exists []. destruct e; reflexivity.
    + unfold bind at 1. unfold call at 1. cbn [session_file lib log].
      destruct (perform env (session_playlist playlist_id) l2) as [[e | [updated |]] l3].
      * eexists [_]. destruct e; reflexivity.
      * unfold bind, lift, ret, raise.
        destruct (getattr _ _) as [e | stored]; [eexists [_]; destruct e; reflexivity|].
        destruct (new_Playlist _ _ _ _ _ _) as [e | made_playlist];
          eexists [_]; try destruct e; reflexivity.
      * eexists [_]. reflexivity.
  - destruct description as [d |]; [|discriminate Hgiven].
    unfold try_except. unfold bind at 1. unfold call at 1. rewrite Hfound.
    cbn [session_file lib log]. unfold bind at 1. unfold call at 1.
    cbn [session_file lib log].
    destruct (perform env _ l1) as [[e | []] l2]; cbn [fst].
    + exists []. destruct e; reflexivity.
    + unfold bind at 1. unfold call at 1. cbn [session_file lib log].
      destruct (perform env (session_playlist playlist_id) l2) as [[e | [updated |]] l3].
      * eexists [_]. destruct e; reflexivity.
      * unfold bind, lift, ret, raise.
        destruct (getattr _ _) as [e | stored]; [eexists [_]; destruct e; reflexivity|].
        destruct (new_Playlist _ _ _ _ _ _) as [e | made_playlist];
          eexists [_]; try destruct e; reflexivity.
      * eexists [_]. reflexivity.
Qed.

Lemma playlist_edit_keeps_the_name_when_none_is_given_witness :
  exists later,
    log (snd (dispatch Ref.env Ref.codec (Update_playlist "p1" (Some "") (Some ""))
                Ref.with_session_file))
    = (later
       ++ interaction (playlist_edit "p1" "Road Trip" (Some "")) (Returned tt)
       :: interaction (session_playlist "p1") (Returned (Some Ref.road_trip))
       :: log (snd (ensure_authenticated Ref.env Ref.codec Ref.with_session_file)))%list.
Proof.
  apply (playlist_edit_keeps_the_name_when_none_is_given Ref.env Ref.codec "p1"
           (Some "") (Some "") Ref.with_session_file
           (snd (ensure_authenticated Ref.env Ref.codec Ref.with_session_file))
           Ref.road_trip
           (Ref.asked (lib (snd (ensure_authenticated Ref.env Ref.codec
                                   Ref.with_session_file)))));
    reflexivity.
Defined.

(** ** Lists: limits that are not clamped, missing results, missing
    durations *)

(** The three favorites tools, with the limit they are given. *)
Definition unclamped (r : Request) : option Z :=
  match r with
  | Get_favorite_tracks limit => Some limit
  | Get_favorite_albums limit => Some limit
  | Get_favorite_artists limit => Some limit
  | _ => None
  end.


(** The result of a search has no entry for the kind searched. *)
Definition key_missing (m : Model) (results : SearchResults.t) : bool :=
  match m with
  | MTrack => match SearchResults.tracks results with None => true | Some _ => false end
  | MAlbum => match SearchResults.albums results with None => true | Some _ => false end
  | MArtist => match SearchResults.artists results with None => true | Some _ => false end
  | MPlaylist =>
      match SearchResults.playlists results with None => true | Some _ => false end
  end.

(** The count a list model reports. *)
Definition count_of (r : Response) : option Z :=
  match r with
  | RTrackList t => Some (TrackList.count t)
  | RAlbumList t => Some (AlbumList.count t)
  | RArtistList t => Some (ArtistList.count t)
  | RPlaylistList t => Some (PlaylistList.count t)
  | RPlaylistTracks t => Some (PlaylistTracks.count t)
  | RAlbumTracks t => Some (AlbumTracks.count t)
  | RRadioTracks t => Some (RadioTracks.count t)
  | _ => None
  end.

(** A remote service whose search answers carry no entry at all, and whose
    favorite tracks include one without a duration. *)
Module Sparse.

Definition demo : RemoteTrack.t :=
  RemoteTrack.mk "444" "Demo" (Some Ref.queen) None NoneVal.

Definition perform (c : Call) (s : Ref.State) : Outcome (answer c) * Ref.State :=
  match c as c0 return Outcome (answer c0) * Ref.State with
  | session_search _ _ _ =>
      (Returned (SearchResults.mk None None None None), Ref.asked s)
  | favorites_tracks _ => (Returned [Ref.rhapsody; demo], Ref.asked s)
  | c0 => Ref.perform c0 s
  end.

Definition env : Env Ref.State := mkEnv Ref.State perform Ref.session Ref.requests.

End Sparse.

(** X14. [get_artist]: once the artist is found the tool succeeds whatever
    [artist.get_bio] does; the biography of the result is the text it
    returned, and absent when it raised. *)
Theorem artist_is_returned_without_biography {L} (env : Env L) (codec : Codec)
  (artist_id : string) (w w1 : World L) (artist : RemoteArtist.t) (l1 : L) :
  ensure_authenticated env codec w = (Returned true, w1) ->
  perform env (session_artist artist_id) (lib w1) = (Returned (Some artist), l1) ->
  fst (dispatch env codec (Get_artist artist_id) w)
  = Returned
      (RArtistDetails
         (ArtistDetails.mk "success"
            (Artist.mk (RemoteArtist.id artist) (RemoteArtist.name artist)
               ("https://tidal.com/browse/artist/" ++ RemoteArtist.id artist))
            match fst (perform env (artist_get_bio (RemoteArtist.id artist)) l1) with
            | Returned text => Some text
            | Raised _ => None
            end)).
Proof.
  intros Hcheck Hfound.
  unfold dispatch, get_artist.
  unfold bind at 1. rewrite Hcheck. cbn [negb].
  tool_run.
  destruct (perform env (artist_get_bio (RemoteArtist.id artist)) l1) as [[e | text] l2];
    reflexivity.
Qed.

Lemma artist_is_returned_without_biography_witness :
  fst (dispatch Ref.env Ref.codec (Get_artist "8992") Ref.with_session_file)
  = Returned
      (RArtistDetails
         (ArtistDetails.mk "success"
            (Artist.mk "8992" "Queen" "https://tidal.com/browse/artist/8992") None)).
Proof.
  apply (artist_is_returned_without_biography Ref.env Ref.codec "8992"
           Ref.with_session_file
           (snd (ensure_authenticated Ref.env Ref.codec Ref.with_session_file))
           Ref.queen
           (Ref.asked (lib (snd (ensure_authenticated Ref.env Ref.codec
                                   Ref.with_session_file)))));
    reflexivity.
Defined.

(** X15. The three favorites tools do not clamp their limit: whatever the
    outcome, every call of the run that carries a limit carries the limit
    the tool was given, be it zero, negative or above the documented
    maximum; and when the tool succeeds that call was made. *)
Theorem favorites_limit_is_passed_unchanged {L} (env : Env L) (codec : Codec)
  (r : Request) (limit : Z) (w : World L) :
  unclamped r = Some limit ->
  exists new,
    log (snd (dispatch env codec r w)) = (new ++ log w)%list
    /\ Forall (fun i => forall n, limit_arg (made i) = Some n -> n = limit) new
    /\ forall resp,
         fst (dispatch env codec r w) = Returned resp ->
         exists i, In i new /\ limit_arg (made i) = Some limit.
Proof.
  intros Hgiven.
  destruct (ensure_authenticated_calls env codec w) as [new0 [Hlog0 Hsession]].
  assert (Hquiet : Forall (fun i => forall n, limit_arg (made i) = Some n -> n = limit)
                     new0).
  { eapply Forall_impl; [|exact Hsession].
    intros i Hi n Hn. rewrite (session_call_has_no_limit _ Hi) in Hn. discriminate Hn. }
  clear Hsession.
  destruct (dispatch env codec r w) as [out w'] eqn:Hrun.
  destruct r; cbn in Hgiven; try discriminate Hgiven;
    inversion Hgiven; subst limit; clear Hgiven;
    unfold dispatch in Hrun;
    match type of Hrun with ?tool _ = _ => let h := head_of tool in unfold h in Hrun end.
  all: run_cases.
  all: run_done.
  all: loop_facts.
  all: cbn [fst snd].
  all: match goal with
       | |- exists new, log ?w1 = _ /\ _ =>
           let l := eval cbn [log] in (log w1) in
           match type of Hlog0 with
           | ?stop = _ =>
               let p := prefix_of l stop in
               exists (p ++ new0)%list
           end
       end.
  all: split; [cbn [log]; rewrite ?Hlog0; reflexivity|].
  all: split;
    [ cbn [app];
      repeat (apply Forall_cons; [cbn; intros n Hn; inversion Hn; reflexivity|]);
      exact Hquiet
    | intros resp Hresp;
      first [ discriminate Hresp
            | eexists; split; [apply in_or_app; left; left; reflexivity | reflexivity] ] ].
Qed.

Lemma favorites_limit_is_passed_unchanged_witness :
  exists new,
    log (snd (dispatch Ref.env Ref.codec (Get_favorite_albums 100000)
                Ref.with_session_file))
    = (new ++ log Ref.with_session_file)%list
    /\ Forall (fun i => forall n, limit_arg (made i) = Some n -> n = 100000) new.
Proof.
  destruct (favorites_limit_is_passed_unchanged Ref.env Ref.codec
              (Get_favorite_albums 100000) 100000 Ref.with_session_file eq_refl)
    as [new [Hlog [Hall _]]].
  exists new. split; assumption.
Defined.




(** X17. The four search tools: when the answer of the search has no entry
    for the kind searched, the tool succeeds with a count of zero and an
    empty list, and makes no further call. *)
Theorem search_without_its_entry_finds_nothing {L} (env : Env L) (codec : Codec)
  (r : Request) (m : Model) (query : string) (limit : Z) (w w1 : World L)
  (results : SearchResults.t) (l1 : L) :
  ensure_authenticated env codec w = (Returned true, w1) ->
  first_call r = Some (session_search m query limit) ->
  perform env (session_search m query limit) (lib w1) = (Returned results, l1) ->
  key_missing m results = true ->
  exists resp,
    dispatch env codec r w
    = (Returned resp,
       mkWorld (session_file w1) l1
         (interaction (session_search m query limit) (Returned results) :: log w1))
    /\ count_of resp = Some 0
    /\ tracks_of resp = [] /\ albums_of resp = []
    /\ artists_of resp = [] /\ playlists_of resp = [].
Proof.
  intros Hcheck Hfirst Hsearch Hmissing.
  destruct r; cbn in Hfirst; try discriminate Hfirst;
    try (match type of Hfirst with
         | option_map _ ?p = _ => destruct p; discriminate Hfirst
         | (if ?b then _ else _) = _ => destruct b; discriminate Hfirst
         end);
    inversion Hfirst; subst m query limit; clear Hfirst;
    cbn [key_missing] in Hmissing;
    match type of Hmissing with
    | match ?field with _ => _ end = true =>
        destruct field eqn:Hfield; [discriminate Hmissing|]
    end;
    eexists;
    (split;
     [ unfold dispatch;
       match goal with |- ?tool _ = _ => let h := head_of tool in unfold h end;
       unfold bind at 1; rewrite Hcheck; cbn [negb];
       tool_run; rewrite ?Hfield; reflexivity
     | repeat split ]).
Qed.

Lemma search_without_its_entry_finds_nothing_witness :
  exists resp,
    fst (dispatch Sparse.env Ref.codec (Search_albums "queen" 10) Ref.with_session_file)
    = Returned resp
    /\ count_of resp = Some 0.
Proof.
  destruct (search_without_its_entry_finds_nothing Sparse.env Ref.codec
              (Search_albums "queen" 10) MAlbum "queen" 10 Ref.with_session_file
              (snd (ensure_authenticated Sparse.env Ref.codec Ref.with_session_file))
              (SearchResults.mk None None None None)
              (Ref.asked (lib (snd (ensure_authenticated Sparse.env Ref.codec
                                      Ref.with_session_file))))
              eq_refl eq_refl eq_refl eq_refl)
    as [resp [Hrun [Hcount _]]].
  exists resp. rewrite Hrun. split; [reflexivity | exact Hcount].
Defined.

Lemma Forall2_In_left {A B} (P : A -> B -> Prop) (xs : list A) (ys : list B) (x : A) :
  Forall2 P xs ys -> In x xs -> exists y, P x y.
Proof.
  induction 1 as [| x0 y0 xs ys Hhead _ IH]; intros Hin; [contradiction|].
  destruct Hin as [Hx | Hin]; [subst x0; exists y0; exact Hhead | exact (IH Hin)].
Qed.

(** X18. A track without a duration (the attribute absent, or [None]) among
    the tracks a tool selects makes the whole call fail with a tool error:
    no list without that track is returned.  This holds for every tool;
    [new] is what the run added to the log. *)
Theorem track_without_duration_fails_the_call {L} (env : Env L) (codec : Codec)
  (r : Request) (w w1 : World L) (new : list Interaction) (x : RemoteTrack.t) :
  ensure_authenticated env codec w = (Returned true, w1) ->
  log (snd (dispatch env codec r w)) = (new ++ log w)%list ->
  In x (selected r (supplied tracks_answered new)) ->
  (forall d, RemoteTrack.duration x <> Val d) ->
  exists m, fst (dispatch env codec r w) = Raised (ToolError m).
Proof.
  intros Hcheck Hlog Hin Hduration.
  destruct (dispatch env codec r w) as [[e | resp] w'] eqn:Hrun; cbn [fst snd] in *.
  - destruct (run_outcomes env codec r w) as [_ Hraised].
    rewrite Hrun in Hraised. cbn [fst] in Hraised.
    destruct (Hraised e eq_refl) as [[m Hm] | Hown].
    + exists m. subst e. reflexivity.
    + rewrite Hcheck in Hown. discriminate Hown.
  - exfalso.
    destruct (run_projects env codec r w w' resp Hrun) as [new' [Hlog' [Htracks _]]].
    assert (new' = new)
      by (apply (app_inv_tail (log w)); rewrite <- Hlog, <- Hlog'; reflexivity).
    subst new'.
    destruct (Forall2_In_left _ _ _ _ Htracks Hin) as [y Hy].
    exact (Hduration _ (proj2 Hy)).
Qed.

Lemma track_without_duration_fails_the_call_witness :
  exists m,
    fst (dispatch Sparse.env Ref.codec (Get_favorite_tracks 50) Ref.with_session_file)
    = Raised (ToolError m).
Proof.
  apply (track_without_duration_fails_the_call Sparse.env Ref.codec
           (Get_favorite_tracks 50) Ref.with_session_file
           (snd (ensure_authenticated Sparse.env Ref.codec Ref.with_session_file))
           [interaction (favorites_tracks 50) (Returned [Ref.rhapsody; Sparse.demo]);
            interaction check_login (Returned true);
            interaction
              (load_oauth_session (JStr "Bearer") (JStr "acc-1") (JStr "ref-1") JNull)
              (Returned true)]
           Sparse.demo).
  - reflexivity.
  - reflexivity.
  - right. left. reflexivity.
  - intros d. discriminate.
Defined.

(** ** The session file and the login flow *)

(** A remote service on which the OAuth flow is never completed: the wait
    ends with the exception of [Ref], whose text says the user took too
    long. *)
Module Idle.

Definition fresh : Ref.State :=
  Ref.mk Ref.blank false ["acc-1"] Ref.device_grant false 0.

Definition first_start : World Ref.State := mkWorld None fresh [].

End Idle.

(** The two results of [login]. *)
Definition already_authenticated : Response :=
  RAuthResult (AuthResult.mk "success" "Already authenticated with TIDAL" true).

Definition newly_authenticated : Response :=
  RAuthResult (AuthResult.mk "success" "Successfully authenticated with TIDAL" true).

(** The URL [login] opens for a verification link. *)
Definition auth_url (uri : string) : string :=
  if startswith uri "http" then uri else "https://" ++ uri.

(** X19. A session file that does not parse, or lacks one of the three
    fields read from it, is deleted without any call to the remote client:
    [check_login] is not asked, so even a process whose session is logged
    in is refused by every tool; the state of the client and the log are
    left as they were. *)
Theorem unreadable_session_file_refuses_without_asking {L} (env : Env L)
  (codec : Codec) (r : Request) (w : World L) (content : string) :
  session_file w = Some content ->
  (forall data,
     loads codec content = Returned data ->
     exists field e,
       In field ["token_type"; "access_token"; "refresh_token"]
       /\ wrapped data field = Raised e) ->
  ensure_authenticated env codec w = (Returned false, mkWorld None (lib w) (log w))
  /\ dispatch env codec r w
     = (Raised (ToolError not_authenticated), mkWorld None (lib w) (log w)).
Proof.
  intros Hfile Hunreadable.
  assert (Hcheck : ensure_authenticated env codec w
                   = (Returned false, mkWorld None (lib w) (log w))).
  { destruct (loads codec content) as [e | data] eqn:Hparse.
    - check_run. reflexivity.
    - destruct (Hunreadable data eq_refl) as [field [e [Hfield Hmissing]]].
      destruct Hfield as [<- | [<- | [<- | []]]].
      + check_run. reflexivity.
      + destruct (wrapped data "token_type") eqn:Htt; check_run; reflexivity.
      + destruct (wrapped data "token_type") eqn:Htt;
          [|destruct (wrapped data "access_token") eqn:Hat];
          check_run; reflexivity. }
  split; [exact Hcheck|].
  destruct (dispatch_guarded env codec r) as [body Hbody].
  rewrite Hbody. apply guarded_refused. exact Hcheck.
Qed.

Lemma unreadable_session_file_refuses_without_asking_witness :
  Ref.user Ref.logged_in = true
  /\ dispatch Ref.env Ref.codec (Get_user_playlists 50)
       (mkWorld (Some "{token_type: Bearer") Ref.logged_in [])
     = (Raised (ToolError not_authenticated), mkWorld None Ref.logged_in []).
Proof.
  split; [reflexivity|].
  apply (unreadable_session_file_refuses_without_asking Ref.env Ref.codec
           (Get_user_playlists 50)
           (mkWorld (Some "{token_type: Bearer") Ref.logged_in [])
           "{token_type: Bearer" eq_refl).
  intros data Hparse. vm_compute in Hparse. discriminate Hparse.
Defined.

(** X20. [login] reports failure by raising only: whenever it returns, the
    result is a success with [authenticated] set; whatever it raises is a
    [ToolError], unless the session check itself raised. *)
Theorem login_fails_by_raising {L} (env : Env L) (codec : Codec) (w : World L) :
  match fst (login env codec w) with
  | Returned resp => resp = already_authenticated \/ resp = newly_authenticated
  | Raised e =>
      (exists m, e = ToolError m)
      \/ fst (ensure_authenticated env codec w) = Raised e
  end.
Proof.
  destruct (login env codec w) as [out w'] eqn:Hrun.
  unfold login, session_attributes, file_write in Hrun.
  run_cases; run_done; cbn [fst];
    first [ left; reflexivity
          | right; reflexivity
          | left; eexists; reflexivity ].
Qed.

(** X21. [login] writes the session file only at the end of a completed
    flow: either it returns the result of a new authentication, its last
    two calls being the wait for the flow and a [check_login] that
    answered [True], and the file holds the session data of the client as
    it then is; or the file is as the session check left it. *)
Theorem login_saves_only_a_confirmed_session {L} (env : Env L) (codec : Codec)
  (w : World L) :
  let run := login env codec w in
  (fst run = Returned newly_authenticated
   /\ (exists rest,
         log (snd run)
         = interaction check_login (Returned true)
             :: interaction future_result (Returned tt) :: rest)
   /\ session_file (snd run)
      = Some (dumps codec (session_data (credentials env (lib (snd run))))))
  \/ (fst run <> Returned newly_authenticated
      /\ session_file (snd run)
         = session_file (snd (ensure_authenticated env codec w))).
Proof.
  cbv zeta.
  destruct (login env codec w) as [out w'] eqn:Hrun.
  unfold login, session_attributes, file_write in Hrun.
  run_cases; run_done; cbn [fst snd session_file lib log];
    repeat match goal with
           | x : answer _ |- _ => progress cbn in x
           | x : unit |- _ => destruct x
           end;
    first [ right; split; [discriminate | reflexivity]
          | left; split; [reflexivity | split; [eexists; reflexivity | reflexivity]] ].
Qed.

Lemma startswith_auth_url (uri : string) : startswith (auth_url uri) "http" = true.
Proof.
  unfold auth_url. destruct (startswith uri "http") eqn:Hhttp; [exact Hhttp|].
  reflexivity.
Qed.

(** X22. [login], when the session check answers [False] and the OAuth flow
    starts: the URL opened in the browser begins with [http] (a link
    without a scheme gets [https://] in front), and whatever
    [webbrowser.open] does, raising included, the wait for the flow comes
    next. *)
Theorem login_waits_whatever_the_browser_does {L} (env : Env L) (codec : Codec)
  (w w1 : World L) (uri : string) (l1 : L) :
  ensure_authenticated env codec w = (Returned false, w1) ->
  perform env login_oauth (lib w1) = (Returned uri, l1) ->
  let opened := perform env (webbrowser_open (auth_url uri)) l1 in
  startswith (auth_url uri) "http" = true
  /\ exists later,
       log (snd (login env codec w))
       = (later
          ++ interaction future_result (fst (perform env future_result (snd opened)))
          :: interaction (webbrowser_open (auth_url uri)) (fst opened)
          :: interaction login_oauth (Returned uri)
          :: log w1)%list.
Proof.
  intros Hcheck Hlink opened. subst opened.
  split; [apply startswith_auth_url|].
  unfold login, session_attributes, file_write. tool_run.
  unfold auth_url.
  destruct (perform env (webbrowser_open _) l1) as [[e | []] l2];
    cbn [fst snd session_file lib log];
    (destruct (perform env future_result l2) as [[e' | []] l3];
     cbn [fst snd session_file lib log];
     [ exists [] | destruct (perform env check_login l3) as [[e'' | []] l4]; eexists [_] ]);
    repeat match goal with
           | |- context [match ?x with _ => _ end] =>
               lazymatch x with
               | context [match _ with _ => _ end] => fail
               | _ => destruct x
               end
           end;
    reflexivity.
Qed.

Lemma login_waits_whatever_the_browser_does_witness :
  exists later,
    log (snd (login Ref.env Ref.codec Ref.first_start))
    = (later
       ++ [ interaction future_result (Returned tt);
            interaction (webbrowser_open "https://link.tidal.com/ABCDE") (Returned tt);
            interaction login_oauth (Returned "link.tidal.com/ABCDE");
            interaction check_login (Returned false) ])%list.
Proof.
  destruct (login_waits_whatever_the_browser_does Ref.env Ref.codec Ref.first_start
              (snd (ensure_authenticated Ref.env Ref.codec Ref.first_start))
              "link.tidal.com/ABCDE"
              (Ref.asked Ref.fresh) eq_refl eq_refl) as [_ [later Hlog]].
  exists later. exact Hlog.
Defined.

(** X23. [login], when the wait for the OAuth flow raises: the report is
    chosen by the text of the exception alone, not by its class.  A text
    that contains "too long" or "timeout", in any case, gives the message
    that points to the helper script; any other text, that of a timeout
    exception included, is reported after "Authentication error: ".  The
    session file is left as the session check left it. *)
Theorem login_timeout_is_told_by_the_text {L} (env : Env L) (codec : Codec)
  (w w1 : World L) (uri cls msg : string) (l1 l3 : L) :
  ensure_authenticated env codec w = (Returned false, w1) ->
  perform env login_oauth (lib w1) = (Returned uri, l1) ->
  perform env future_result (snd (perform env (webbrowser_open (auth_url uri)) l1))
  = (Raised (PyError cls msg), l3) ->
  fst (login env codec w)
  = Raised
      (ToolError
         (if (contains "too long" (lower msg) || contains "timeout" (lower msg))%bool
          then authentication_timed_out
          else "Authentication error: " ++ msg))
  /\ session_file (snd (login env codec w)) = session_file w1.
Proof.
  intros Hcheck Hlink Hwait.
  unfold auth_url in Hwait.
  unfold login, session_attributes, file_write. tool_run.
  destruct (perform env (webbrowser_open _) l1) as [[e | []] l2];
    cbn [fst snd session_file lib log] in *;
    rewrite Hwait; cbn [str];
    destruct (contains "too long" (lower msg) || contains "timeout" (lower msg))%bool;
    split; reflexivity.
Qed.

Lemma login_timeout_is_told_by_the_text_witness :
  fst (login Ref.env Ref.codec Idle.first_start)
  = Raised (ToolError authentication_timed_out)
  /\ session_file (snd (login Ref.env Ref.codec Idle.first_start)) = None.
Proof.
  apply (login_timeout_is_told_by_the_text Ref.env Ref.codec Idle.first_start
           (snd (ensure_authenticated Ref.env Ref.codec Idle.first_start))
           "link.tidal.com/ABCDE" "TimeoutError" "You took too long to log in"
           (Ref.asked Idle.fresh) (Ref.asked (Ref.asked Idle.fresh)));
    reflexivity.
Defined.

(** ** The helper script [authenticate.py] *)

(** [authenticate.py] keeps the session in the file the server reads:
    [Path(__file__).parent / ".tidal-sessions" / "session.json"] from the
    root of the repository is the server's [SESSION_FILE].  Its [main] is
    embedded over the same world as the server; the value returned is the
    exit code of the script.  What the script prints is left out, and with
    it the verification link and [login.expires_in], which are only
    printed.  An early [return 0] inside the first [try] is the value
    [Some 0] of that block, falling out of it is [None]. *)
Module Authenticate.

Section Script.

Context {L : Type}.
Variable env : Env L.
Variable codec : Codec.

Definition main : M L Z :=
  present <- file_exists ;;
  returned <-
    (if (present : bool) then
       try_except
         (content <- file_read ;;
          data <- lift (loads codec content) ;;
          token_type <- lift (wrapped data "token_type") ;;
          access_token <- lift (wrapped data "access_token") ;;
          refresh_token <- lift (wrapped data "refresh_token") ;;
          result <- call env
                      (load_oauth_session token_type access_token refresh_token JNull) ;;
          if (result : bool) then
            logged_in <- call env check_login ;;
            ret (if (logged_in : bool) then Some 0 else None)
          else ret None)
         (fun _ => file_unlink ;; ret None)
     else ret None) ;;
  match returned with
  | Some code => ret code
  | None =>
      call env login_oauth ;;
      waited <- try_except (call env future_result ;; ret true) (fun _ => ret false) ;;
      if negb (waited : bool) then ret 1 else
      logged_in <- call env check_login ;;
      if (logged_in : bool) then
        session <- session_attributes env ;;
        file_write (dumps codec (session_data session)) ;;
        ret 0
      else ret 1
  end.

End Script.

End Authenticate.

(** A remote service that accepts the stored tokens when they are loaded
    and then denies the login. *)
Module Lapsed.

Definition perform (c : Call) (s : Ref.State) : Outcome (answer c) * Ref.State :=
  match c as c0 return Outcome (answer c0) * Ref.State with
  | check_login => (Returned false, Ref.asked s)
  | c0 => Ref.perform c0 s
  end.

Definition env : Env Ref.State := mkEnv Ref.State perform Ref.session Ref.requests.

End Lapsed.

Ltac script_run :=
  unfold Authenticate.main, file_exists, file_read, file_unlink, file_write,
    session_attributes in *.

Ltac units :=
  repeat match goal with
         | x : answer _ |- _ => progress cbn in x
         | x : unit |- _ => destruct x
         end.

(** X24. [main] of [authenticate.py]: when it returns, the exit code is 0 or
    1.  It catches what goes wrong while the stored session is read and
    while it waits for the OAuth flow; an exception of [login_oauth], or of
    the [check_login] that follows a completed flow, is not caught and
    ends the script. *)
Theorem script_exits_with_0_or_1 {L} (env : Env L) (codec : Codec) (w : World L) :
  match fst (Authenticate.main env codec w) with
  | Returned code => code = 0 \/ code = 1
  | Raised e =>
      exists rest,
        log (snd (Authenticate.main env codec w))
        = interaction login_oauth (Raised e) :: rest
        \/ log (snd (Authenticate.main env codec w))
           = interaction check_login (Raised e)
               :: interaction future_result (Returned tt) :: rest
  end.
Proof.
  destruct (Authenticate.main env codec w) as [out w'] eqn:Hrun.
  script_run.
  run_cases; run_done; units; cbn [negb fst snd session_file lib log] in *;
    first [ congruence
          | left; reflexivity
          | right; reflexivity
          | eexists; left; reflexivity
          | eexists; right; reflexivity ].
Qed.

(** The script ends with the exception of a service it cannot reach. *)
Example script_ends_when_the_service_is_unreachable :
  fst (Authenticate.main Outage.env Ref.codec Ref.first_start)
  = Raised Outage.unreachable.
Proof. vm_compute. reflexivity. Qed.

(** X25. [main] of [authenticate.py] exits with 0 only for a session that
    [check_login] has just confirmed, and then leaves a session file: the
    one it found, untouched, when the stored session is still good, and
    otherwise a new one that holds the session data of the client laid out
    as [login] of the server lays them out. *)
Theorem script_success_leaves_a_session_file {L} (env : Env L) (codec : Codec)
  (w w' : World L) :
  Authenticate.main env codec w = (Returned 0, w') ->
  (exists rest, log w' = interaction check_login (Returned true) :: rest)
  /\ ((session_file w' = session_file w /\ session_file w <> None)
      \/ session_file w'
         = Some (dumps codec (session_data (credentials env (lib w'))))).
Proof.
  intros Hrun. script_run.
  run_cases; run_done; units; cbn [negb session_file lib log] in *;
    try congruence;
    (split; [eexists; reflexivity|]);
    first [ right; reflexivity
          | left; split; [first [reflexivity | assumption] | congruence] ].
Qed.

Lemma script_success_leaves_a_session_file_witness :
  session_file (snd (Authenticate.main Ref.env Ref.codec Ref.first_start))
  = Some (Ref.dump (session_data Ref.device_grant)).
Proof.
  destruct (script_success_leaves_a_session_file Ref.env Ref.codec Ref.first_start
              (snd (Authenticate.main Ref.env Ref.codec Ref.first_start)) eq_refl)
    as [_ [[Hkept Hthere] | Hnew]].
  - exfalso. apply Hthere. reflexivity.
  - rewrite Hnew. reflexivity.
Defined.

(** X26. A stored session that loads but that [check_login] then denies:
    the server's [ensure_authenticated] deletes the session file, while
    [main] of [authenticate.py] leaves it in place and starts the OAuth
    flow; the file is still there, unchanged, unless the script ends with
    exit code 0, having written a new one. *)
Theorem script_keeps_a_denied_session_file {L} (env : Env L) (codec : Codec)
  (w : World L) (content : string) (data token_type access_token refresh_token : json)
  (l1 l2 : L) :
  session_file w = Some content ->
  loads codec content = Returned data ->
  wrapped data "token_type" = Returned token_type ->
  wrapped data "access_token" = Returned access_token ->
  wrapped data "refresh_token" = Returned refresh_token ->
  perform env (load_oauth_session token_type access_token refresh_token JNull) (lib w)
  = (Returned true, l1) ->
  perform env check_login l1 = (Returned false, l2) ->
  session_file (snd (ensure_authenticated env codec w)) = None
  /\ (exists later,
        log (snd (Authenticate.main env codec w))
        = (later
           ++ interaction login_oauth (fst (perform env login_oauth l2))
           :: interaction check_login (Returned false)
           :: interaction
                (load_oauth_session token_type access_token refresh_token JNull)
                (Returned true)
           :: log w)%list)
  /\ (fst (Authenticate.main env codec w) <> Returned 0 ->
      session_file (snd (Authenticate.main env codec w)) = Some content).
Proof.
  intros Hfile Hparse Htt Hat Hrt Hload Hcheck.
  split; [check_run; reflexivity|].
  script_run. tool_run.
  destruct (perform env login_oauth l2) as [[e | uri] l3];
    cbn [fst snd session_file lib log].
  - split; [exists []; reflexivity | intros _; reflexivity].
  - destruct (perform env future_result l3) as [[e | []] l4];
      cbn [fst snd session_file lib log negb].
    + split; [eexists [_]; reflexivity | intros _; reflexivity].
    + destruct (perform env check_login l4) as [[e | []] l5];
        cbn [fst snd session_file lib log];
        (split; [eexists [_; _]; reflexivity|]);
        intros Hcode; first [reflexivity | exfalso; apply Hcode; reflexivity].
Qed.

Lemma script_keeps_a_denied_session_file_witness :
  session_file (snd (ensure_authenticated Lapsed.env Ref.codec Ref.with_session_file))
  = None
  /\ fst (Authenticate.main Lapsed.env Ref.codec Ref.with_session_file) = Returned 1
  /\ session_file (snd (Authenticate.main Lapsed.env Ref.codec Ref.with_session_file))
     = Some (Ref.dump (session_data Ref.device_grant)).
Proof.
  destruct (script_keeps_a_denied_session_file Lapsed.env Ref.codec
              Ref.with_session_file
              (Ref.dump (session_data Ref.device_grant))
              (session_data Ref.device_grant)
              (JStr "Bearer") (JStr "acc-1") (JStr "ref-1")
              (snd (Ref.perform
                      (load_oauth_session (JStr "Bearer") (JStr "acc-1") (JStr "ref-1")
                         JNull)
                      Ref.fresh))
              (Ref.asked
                 (snd (Ref.perform
                         (load_oauth_session (JStr "Bearer") (JStr "acc-1")
                            (JStr "ref-1") JNull)
                         Ref.fresh)))
              eq_refl eq_refl eq_refl eq_refl eq_refl eq_refl eq_refl)
    as [Hserver [_ Hscript]].
  split; [exact Hserver|].
  split; [reflexivity|].
  apply Hscript. discriminate.
Defined.

(** X27. A session that [authenticate.py] saved is used by the server: when
    the script, started without a session file, exits with 0, the file it
    leaves makes the first call of [ensure_authenticated], in a process
    with whatever client state, the load of the token type, access token
    and refresh token the script's client held, with no expiry time. *)
Theorem script_session_is_loaded_by_the_server {L} (env : Env L) (codec : Codec)
  (w w' : World L) :
  session_file w = None ->
  Authenticate.main env codec w = (Returned 0, w') ->
  let saved := credentials env (lib w') in
  loads codec (dumps codec (session_data saved)) = Returned (session_data saved) ->
  forall (l : L) (history : list Interaction),
  exists later,
    log (snd (ensure_authenticated env codec (mkWorld (session_file w') l history)))
    = (later ++ interaction (load_of saved) (fst (perform env (load_of saved) l))
         :: history)%list.
Proof.
  intros Hnone Hrun saved Hround l history.
  assert (Hfile : session_file w' = Some (dumps codec (session_data saved))).
  { subst saved. clear Hround. script_run.
    run_cases; run_done; units; cbn [negb session_file lib log] in *;
      first [congruence | reflexivity]. }
  rewrite Hfile.
  rewrite (ensure_authenticated_on_saved env codec saved
             (mkWorld (Some (dumps codec (session_data saved))) l history)
             eq_refl Hround).
  unfold load_then_check, load_of, try_except, bind, call, file_unlink, ret.
  cbn [session_file lib log].
  destruct (perform env _ l) as [[e | []] l1]; cbn [fst snd session_file lib log].
  - exists []; reflexivity.
  - destruct (perform env check_login l1) as [[e | []] l2];
      cbn [fst snd session_file lib log negb];
      eexists [_]; reflexivity.
  - exists []; reflexivity.
Qed.

Lemma script_session_is_loaded_by_the_server_witness :
  exists later,
    log (snd (ensure_authenticated Ref.env Ref.codec
                (mkWorld
                   (session_file
                      (snd (Authenticate.main Ref.env Ref.codec Ref.first_start)))
                   Ref.fresh [])))
    = (later
       ++ [interaction
             (load_oauth_session (JStr "Bearer") (JStr "acc-1") (JStr "ref-1") JNull)
             (Returned true)])%list.
Proof.
  apply (script_session_is_loaded_by_the_server Ref.env Ref.codec Ref.first_start
           (snd (Authenticate.main Ref.env Ref.codec Ref.first_start))
           eq_refl eq_refl eq_refl Ref.fresh []).
Defined.
